(** * The MD-102 daily study e-mail webhook (main.py)

    A shallow embedding of [main.py] and the properties of its identifier
    range expander, its Notion property extractors and its webhook
    orchestration.

    Conventions of the embedding.
    - A Python [str] is a Rocq [string] holding its UTF-8 text: equality,
      concatenation, splitting on a comma and the code-point order used by
      [sorted] all agree with the byte-wise operations on UTF-8.
    - The regular-expression class [\d] and [int] are modelled on the ASCII
      digits; [str.strip] removes every Unicode white-space character.
    - Integers are unbounded, as Python's. The interpreter's limit on the
      length of a digit string that [int] converts, and the time and memory
      a long range takes, are left out.
    - Values decoded from JSON are [pyval]s; a number is an integer.
    - Python exceptions are values of [exn]; code that can raise returns a
      [result]; code that talks to Notion threads the state of the outside
      world. *)

From Stdlib Require Import ZArith NArith Ascii DecimalString DecimalN DecimalPos.
From stdpp Require Import gmap strings list fin_maps sorting.

Set Default Proof Using "Type".
#[local] Set Warnings "-register-all,-clear-no-such-hyp".

(** ** Python strings *)

Module PyStr.

Definition byte (c : ascii) : N := N_of_ascii c.

(** The ASCII members of [str.isspace]: TAB..CR, FS..US and the space. *)
Definition ascii_space (c : ascii) : bool :=
  let n := byte c in
  ((9 <=? n) && (n <=? 13) || (28 <=? n) && (n <=? 32))%N.

(** U+0085 and U+00A0, as UTF-8. *)
Definition space2 (a b : ascii) : bool :=
  ((byte a =? 194) && ((byte b =? 133) || (byte b =? 160)))%N.

(** U+1680, U+2000..U+200A, U+2028, U+2029, U+202F, U+205F and U+3000,
    as UTF-8. *)
Definition space3 (a b c : ascii) : bool :=
  let '(x, y, z) := (byte a, byte b, byte c) in
  ((x =? 225) && (y =? 154) && (z =? 128)
   || (x =? 226) && (y =? 128)
      && ((128 <=? z) && (z <=? 138) || (z =? 168) || (z =? 169) || (z =? 175))
   || (x =? 226) && (y =? 129) && (z =? 159)
   || (x =? 227) && (y =? 128) && (z =? 128))%N.

(** [drop_spaces false] is [str.lstrip()]. With [backwards] set it reads the
    bytes of the reversed string, so that a multi-byte white-space character
    shows up last byte first. *)
Fixpoint drop_spaces (backwards : bool) (s : string) : string :=
  match s with
  | String a r =>
      if ascii_space a then drop_spaces backwards r else
      match r with
      | String b r' =>
          if (if backwards then space2 b a else space2 a b)
          then drop_spaces backwards r' else
          match r' with
          | String c r'' =>
              if (if backwards then space3 c b a else space3 a b c)
              then drop_spaces backwards r'' else s
          | EmptyString => s
          end
      | EmptyString => s
      end
  | EmptyString => s
  end.

Definition lstrip (s : string) : string := drop_spaces false s.

Definition rstrip (s : string) : string :=
  String.rev (drop_spaces true (String.rev s)).

(** [s.strip()] *)
Definition strip (s : string) : string := rstrip (lstrip s).

(** [s.split(sep)] for a one-character separator: never the empty list. *)
Fixpoint split (sep : ascii) (s : string) : list string :=
  match s with
  | EmptyString => [EmptyString]
  | String c r =>
      if Ascii.eqb c sep then EmptyString :: split sep r
      else match split sep r with
           | h :: t => String c h :: t
           | [] => [String c EmptyString]
           end
  end.

(** [sep.join(l)] *)
Fixpoint join (sep : string) (l : list string) : string :=
  match l with
  | [] => ""
  | [x] => x
  | x :: r => x +:+ sep +:+ join sep r
  end.

Definition is_digit (c : ascii) : bool :=
  let n := byte c in ((48 <=? n) && (n <=? 57))%N.

(** [int(s)] for a run of digits. *)
Definition int_of_digits (s : string) : N :=
  foldl (λ acc c, 10 * acc + (byte c - 48))%N 0%N (String.list_ascii_of_string s).

(** [str(n)] for a natural number and for an integer. *)
Definition str_of_N (n : N) : string := NilZero.string_of_uint (N.to_uint n).

Definition str_of_Z (z : Z) : string := NilZero.string_of_int (Z.to_int z).

Fixpoint zeros (n : nat) : string :=
  match n with
  | O => ""
  | S n => String "0" (zeros n)
  end.

(** [s.zfill(width)] for a string [s] without a sign: the text of a natural
    number. *)
Definition zfill (width : nat) (s : string) : string :=
  zeros (width - String.length s) +:+ s.

(** [range(start, stop)] *)
Definition range (start stop : N) : list N :=
  (λ k, start + N.of_nat k)%N <$> seq 0 (N.to_nat (stop - start)).

End PyStr.

(** ** The two regular expressions of the range expander

    A small backtracking matcher for the constructs the patterns are written
    with. Alternatives are tried in the order of Python's [re]: a lazy [+?]
    first tries to stop, a greedy [+] first tries to go on. [re.match] anchors
    the match at the start of the string, which is all the leading [^] of the
    patterns asks for. *)

Module Re.

Inductive regex :=
| Lit (c : ascii)
| Plus (greedy : bool) (cls : ascii → bool)
| Group (r : regex)
| Cat (r1 r2 : regex)
| Dollar.

Definition groups := list string.

Fixpoint plus_greedy (cls : ascii → bool) (s : string)
    (k : string → option groups) : option groups :=
  match s with
  | String c r =>
      if cls c then
        match plus_greedy cls r k with
        | Some g => Some g
        | None => k r
        end
      else None
  | EmptyString => None
  end.

Fixpoint plus_lazy (cls : ascii → bool) (s : string)
    (k : string → option groups) : option groups :=
  match s with
  | String c r =>
      if cls c then
        match k r with
        | Some g => Some g
        | None => plus_lazy cls r k
        end
      else None
  | EmptyString => None
  end.

(** [$]: the end of the string, or just before a final line feed. *)
Definition at_end (s : string) : bool :=
  match s with
  | EmptyString => true
  | String c EmptyString => Ascii.eqb c "010"
  | _ => false
  end.

(** What a group has consumed when the match goes on at [rest]. *)
Definition consumed (s rest : string) : string :=
  String.substring 0 (String.length s - String.length rest) s.

Fixpoint run (r : regex) (s : string) (k : string → option groups)
    : option groups :=
  match r with
  | Lit c =>
      match s with
      | String c' s' => if Ascii.eqb c c' then k s' else None
      | EmptyString => None
      end
  | Plus true cls => plus_greedy cls s k
  | Plus false cls => plus_lazy cls s k
  | Group r => run r s (λ rest, cons (consumed s rest) <$> k rest)
  | Cat r1 r2 => run r1 s (λ rest, run r2 rest k)
  | Dollar => if at_end s then k s else None
  end.

(** [re.match(r, s)]: the groups of the first match, in the order of their
    opening brackets. *)
Definition re_match (r : regex) (s : string) : option groups :=
  run r s (λ _, Some []).

(** [m.group(n)], for [n] from 1. *)
Definition group (m : groups) (n : nat) : string := nth (pred n) m "".

(** [.] matches everything but a line feed. *)
Definition dot (c : ascii) : bool := negb (Ascii.eqb c "010").

Definition digit : ascii → bool := PyStr.is_digit.

Infix "·" := Cat (at level 41, right associativity).

(** [^(.+?)(\d+)\.\.(\d+)$] *)
Definition pattern_a : regex :=
  Group (Plus false dot) · Group (Plus true digit) · Lit "." · Lit "."
  · Group (Plus true digit) · Dollar.

(** [^(.+?)(\d+)\.\.(.+?)(\d+)$] *)
Definition pattern_b : regex :=
  Group (Plus false dot) · Group (Plus true digit) · Lit "." · Lit "."
  · Group (Plus false dot) · Group (Plus true digit) · Dollar.

End Re.

(** ** ID parsing utilities *)

(** The body of both [for i in range(start_num, end_num + 1)] loops:
    the identifiers a range adds, in the order of the loop. *)
Definition expand_range (prefix g_start g_end : string) : list string :=
  let start_num := PyStr.int_of_digits g_start in
  let end_num := PyStr.int_of_digits g_end in
  let width := String.length g_start in
  (λ i, prefix +:+ PyStr.zfill width (PyStr.str_of_N i))
    <$> PyStr.range start_num (end_num + 1).

Definition add_all (ids : gset string) (l : list string) : gset string :=
  foldl (λ ids x, {[ x ]} ∪ ids) ids l.

(** One turn of [for token in tokens]. *)
Definition add_token (ids : gset string) (token : string) : gset string :=
  match Re.re_match Re.pattern_a token with
  | Some m =>
      add_all ids (expand_range (Re.group m 1) (Re.group m 2) (Re.group m 3))
  | None =>
      match Re.re_match Re.pattern_b token with
      | Some m =>
          if String.eqb (Re.group m 1) (Re.group m 3)
          then add_all ids
                 (expand_range (Re.group m 1) (Re.group m 2) (Re.group m 4))
          else {[ token ]} ∪ ids
      | None => {[ token ]} ∪ ids
      end
  end.

(** [[t.strip() for t in raw.split(",") if t.strip()]] *)
Definition tokens_of (raw : string) : list string :=
  omap (λ t, let t' := PyStr.strip t in
             if String.eqb t' "" then None else Some t')
       (PyStr.split "," raw).

(** [sorted(list(ids))]: the elements of the set in ascending order. *)
Definition sorted (ids : gset string) : list string :=
  merge_sort String.le (elements ids).

Definition parse_id_list (raw : string) : list string :=
  if String.eqb raw "" then []
  else sorted (foldl add_token ∅ (tokens_of raw)).

(** ** Python values and exceptions *)

(** A value decoded from JSON. *)
Inductive pyval :=
| PNone
| PBool (b : bool)
| PInt (z : Z)
| PStr (s : string)
| PList (l : list pyval)
| PDict (d : gmap string pyval).

(** The exceptions of the program, all of them subclasses of [Exception]:
    FastAPI's [HTTPException], and any other one by its class name and
    message. *)
Inductive exn :=
| HTTPException (status_code : Z) (detail : string)
| PyError (cls msg : string).

Inductive result (A : Type) :=
| Ok (a : A)
| Raise (e : exn).
Arguments Ok {A} a.
Arguments Raise {A} e.

#[global] Instance result_ret : MRet result := λ A, Ok.
#[global] Instance result_bind : MBind result := λ A B f m,
  match m with
  | Ok a => f a
  | Raise e => Raise e
  end.
#[global] Instance result_fmap : FMap result := λ A B f m,
  match m with
  | Ok a => Ok (f a)
  | Raise e => Raise e
  end.

(** [for x in l: ...] over a body that can raise, collecting its values. *)
Fixpoint traverse {A B} (f : A → result B) (l : list A) : result (list B) :=
  match l with
  | [] => Ok []
  | x :: r => y ← f x; ys ← traverse f r; Ok (y :: ys)
  end.

Module Py.

(** [str(exc)] *)
Definition str_of_exn (e : exn) : string :=
  match e with
  | HTTPException status_code detail =>
      PyStr.str_of_Z status_code +:+ ": " +:+ detail
  | PyError _ msg => msg
  end.

(** [type(v).__name__] *)
Definition type_name (v : pyval) : string :=
  match v with
  | PNone => "NoneType"
  | PBool _ => "bool"
  | PInt _ => "int"
  | PStr _ => "str"
  | PList _ => "list"
  | PDict _ => "dict"
  end.

(** [bool(v)] *)
Definition truthy (v : pyval) : bool :=
  match v with
  | PNone => false
  | PBool b => b
  | PInt z => negb (z =? 0)%Z
  | PStr s => negb (String.eqb s "")
  | PList l => match l with [] => false | _ => true end
  | PDict d => bool_decide (d ≠ ∅)
  end.

(** [a or b], with [b] evaluated only when [a] is falsy. *)
Definition or_else (a : pyval) (b : result pyval) : result pyval :=
  if truthy a then Ok a else b.

(** [v == "..."] against a string literal. *)
Definition eq_str (v : pyval) (s : string) : bool :=
  match v with
  | PStr s' => String.eqb s' s
  | _ => false
  end.

(** [v.get(key, default)]: only a dict has the method. *)
Definition get (v : pyval) (key : string) (dflt : pyval) : result pyval :=
  match v with
  | PDict d => Ok (default dflt (d !! key))
  | _ => Raise (PyError "AttributeError"
                  ("'" +:+ type_name v +:+ "' object has no attribute 'get'"))
  end.

(** The characters of a string: every byte that is not a UTF-8 continuation
    byte starts one. *)
Fixpoint chars_go (cur : string) (s : string) : list string :=
  match s with
  | EmptyString => if String.eqb cur "" then [] else [cur]
  | String c r =>
      if ((128 <=? PyStr.byte c) && (PyStr.byte c <=? 191))%N
      then chars_go (cur +:+ String c "") r
      else (if String.eqb cur "" then [] else [cur])
           ++ chars_go (String c "") r
  end.

Definition chars (s : string) : list string := chars_go "" s.

(** [iter(v)]: the items a [for] loop or a generator goes through. The keys
    of a dict come in the order of [map_to_list]; the program raises on the
    first of them whatever it is. *)
Definition iter (v : pyval) : result (list pyval) :=
  match v with
  | PList l => Ok l
  | PStr s => Ok (PStr <$> chars s)
  | PDict d => Ok ((PStr ∘ fst) <$> map_to_list d)
  | _ => Raise (PyError "TypeError"
                  ("'" +:+ type_name v +:+ "' object is not iterable"))
  end.

(** [v[0]] *)
Definition index0 (v : pyval) : result pyval :=
  match v with
  | PList (x :: _) => Ok x
  | PList [] => Raise (PyError "IndexError" "list index out of range")
  | PStr s =>
      match chars s with
      | c :: _ => Ok (PStr c)
      | [] => Raise (PyError "IndexError" "string index out of range")
      end
  | PDict _ => Raise (PyError "KeyError" "0")
  | _ => Raise (PyError "TypeError"
                  ("'" +:+ type_name v +:+ "' object is not subscriptable"))
  end.

(** The type check of [str.join] on the items it has collected. *)
Fixpoint join_items (i : N) (l : list pyval) : result (list string) :=
  match l with
  | [] => Ok []
  | PStr s :: r => ss ← join_items (i + 1) r; Ok (s :: ss)
  | v :: _ =>
      Raise (PyError "TypeError"
               ("sequence item " +:+ PyStr.str_of_N i
                +:+ ": expected str instance, " +:+ type_name v +:+ " found"))
  end.

(** ["".join(l)] *)
Definition join_empty (l : list pyval) : result string :=
  PyStr.join "" <$> join_items 0 l.

End Py.

(** ** Notion property extractors (plain text only) *)

(** Extract plain text from rich_text or title arrays. *)
Definition extract_rich_text (prop : pyval) : result string :=
  if negb (Py.truthy prop) then Ok "" else
  prop_type ← Py.get prop "type" (PStr "");
  arr ← (if Py.eq_str prop_type "rich_text"
         then Py.get prop "rich_text" (PList [])
         else if Py.eq_str prop_type "title"
         then Py.get prop "title" (PList [])
         else a ← Py.get prop "rich_text" (PList []);
              Py.or_else a (Py.get prop "title" (PList [])));
  if negb (Py.truthy arr) then Ok "" else
  items ← Py.iter arr;
  parts ← traverse (λ item, Py.get item "plain_text" (PStr "")) items;
  s ← Py.join_empty parts;
  Ok (PyStr.strip s).

(** Extract name from select property. *)
Definition extract_select (prop : pyval) : result pyval :=
  if negb (Py.truthy prop) then Ok (PStr "") else
  select_obj ← Py.get prop "select" PNone;
  if Py.truthy select_obj then Py.get select_obj "name" (PStr "")
  else Ok (PStr "").

(** Extract boolean from checkbox property. *)
Definition extract_checkbox (prop : pyval) : result pyval :=
  if negb (Py.truthy prop) then Ok (PBool false) else
  Py.get prop "checkbox" (PBool false).

(** Extract start date from date property. *)
Definition extract_date (prop : pyval) : result pyval :=
  if negb (Py.truthy prop) then Ok (PStr "") else
  date_obj ← Py.get prop "date" PNone;
  if Py.truthy date_obj
  then start ← Py.get date_obj "start" (PStr "");
       Py.or_else start (Ok (PStr ""))
  else Ok (PStr "").

(** Extract URL from url property (or fallback to rich_text). *)
Definition extract_url (prop : pyval) : result pyval :=
  if negb (Py.truthy prop) then Ok (PStr "") else
  prop_type ← Py.get prop "type" (PStr "");
  if Py.eq_str prop_type "url"
  then url ← Py.get prop "url" (PStr "");
       Py.or_else url (Ok (PStr ""))
  else if Py.eq_str prop_type "rich_text"
  then PStr <$> extract_rich_text prop
  else Ok (PStr "").

(** Safely get a property from a Notion page. *)
Definition get_prop (page : pyval) (name : string) : result pyval :=
  properties ← Py.get page "properties" (PDict ∅);
  Py.get properties name (PDict ∅).

(** [extract_select(get_prop(page, name)) or
     extract_rich_text(get_prop(page, name))] *)
Definition select_or_text (page : pyval) (name : string) : result pyval :=
  prop ← get_prop page name;
  a ← extract_select prop;
  Py.or_else a (prop' ← get_prop page name; PStr <$> extract_rich_text prop').

(** [extract_rich_text(get_prop(page, name))] *)
Definition text_of (page : pyval) (name : string) : result string :=
  get_prop page name ≫= extract_rich_text.

(** ** Code that talks to the outside world

    [M W A] is a computation over the state [W] of the outside world that
    returns an [A] or raises. *)

Definition M (W A : Type) : Type := W → result A * W.

#[global] Instance M_ret {W} : MRet (M W) := λ A a w, (Ok a, w).
#[global] Instance M_bind {W} : MBind (M W) := λ A B f m w,
  match m w with
  | (Ok a, w') => f a w'
  | (Raise e, w') => (Raise e, w')
  end.

#[global] Instance M_fmap {W} : FMap (M W) := λ A B f m w,
  match m w with
  | (Ok a, w') => (Ok (f a), w')
  | (Raise e, w') => (Raise e, w')
  end.

Definition raise {W A} (e : exn) : M W A := λ w, (Raise e, w).

Definition lift {W A} (r : result A) : M W A := λ w, (r, w).

(** [try: m  except Exception as e: h e] *)
Definition try_except {W A} (m : M W A) (h : exn → M W A) : M W A := λ w,
  match m w with
  | (Ok a, w') => (Ok a, w')
  | (Raise e, w') => h e w'
  end.

(** What [httpx] hands back for a request. *)
Module Httpx.
Record Response := {
  status_code : Z;
  text : string;
  json : result pyval;   (* response.json() *)
}.
End Httpx.

(** The outside world of the program: [client.post(url, headers=, json=)],
    which answers or raises (a time-out, a broken connection), and Python's
    [repr] of a list or a dict, which the program only prints. *)
Record Runtime (W : Type) := {
  post : string → gmap string string → pyval → M W Httpx.Response;
  py_repr : pyval → string;
}.
Arguments post {W} _ _ _ _.
Arguments py_repr {W} _ _.

(** *** Configuration *)

Record Config := {
  NOTION_TOKEN : string;
  AUTH_TOKEN : string;
  PLAN_DB_ID : string;
  OBJECTIVES_DB_ID : string;
  RESOURCES_DB_ID : string;
  PRACTICE_DB_ID : string;
  MISTAKES_DB_ID : string;
}.

Definition NOTION_API_VERSION : string := "2022-06-28".
Definition NOTION_BASE_URL : string := "https://api.notion.com/v1".

(** *** Pydantic models *)

Record WebhookRequest := {
  run_date : string;
  timezone : string;
}.

Record DebugInfo := {
  date : string;
  objectives_count : nat;
  resources_count : nat;
  practice_test_found : bool;
  mistakes_found : nat;
}.

Record WebhookResponse := {
  should_send : bool;
  subject : string;
  body : string;
  reason : string;
  debug : DebugInfo;
}.

(** [DebugInfo(date=d)]: the other fields at their defaults. *)
Definition DebugInfo_new (d : string) : DebugInfo :=
  {| date := d; objectives_count := 0; resources_count := 0;
     practice_test_found := false; mistakes_found := 0 |}.

(** [WebhookResponse(should_send=.., reason=.., debug=..)]: subject and body
    at their defaults. *)
Definition WebhookResponse_new (send : bool) (why : string) (d : DebugInfo)
    : WebhookResponse :=
  {| should_send := send; subject := ""; body := ""; reason := why;
     debug := d |}.

Definition dump_debug (d : DebugInfo) : pyval :=
  PDict (list_to_map
    [("date", PStr (date d));
     ("objectives_count", PInt (Z.of_nat (objectives_count d)));
     ("resources_count", PInt (Z.of_nat (resources_count d)));
     ("practice_test_found", PBool (practice_test_found d));
     ("mistakes_found", PInt (Z.of_nat (mistakes_found d)))]).

(** [r.model_dump()] *)
Definition model_dump (r : WebhookResponse) : pyval :=
  PDict (list_to_map
    [("should_send", PBool (should_send r));
     ("subject", PStr (subject r));
     ("body", PStr (body r));
     ("reason", PStr (reason r));
     ("debug", dump_debug (debug r))]).

(** What the endpoint answers: a status and a JSON object. *)
Record JSONResponse := {
  status_code : Z;
  content : pyval;
}.

(** [JSONResponse(status_code=.., content={"error": msg})] *)
Definition error_response (status : Z) (msg : string) : JSONResponse :=
  {| status_code := status; content := PDict {[ "error" := PStr msg ]} |}.

(** A dict returned by the endpoint is sent with status 200. *)
Definition ok_response (r : WebhookResponse) : JSONResponse :=
  {| status_code := 200; content := model_dump r |}.

(** *** The records the digest is made of *)

Record Objective := {
  o_id : string;
  o_objective : string;
  o_exam_area : pyval;
  o_skill_group : pyval;
  o_priority : pyval;
  o_primary_resources : string;
}.

Record Resource := {
  r_id : string;
  r_name : string;
  r_type : pyval;
  r_url : pyval;
  r_why : string;
}.

Record PracticeTest := {
  p_provider : pyval;
  p_test : string;
  p_focus : string;
  p_notes : string;
}.

Record Mistake := {
  m_objective_id : string;
  m_summary : string;
  m_rule : string;
  m_tip : string;
}.

(** The fields read from the plan row in step 5. *)
Record PlanDetails := {
  phase : string;
  focus_priority : pyval;
  session1_text : string;
  session1_resources_raw : string;
  session2_text : string;
  session2_resources_raw : string;
  focus_objectives_raw : string;
}.

(** The local variables of the endpoint when it builds the e-mail. *)
Record Assembly := {
  objective_ids : list string;
  objectives : list Objective;
  resource_ids : list string;
  resources : list Resource;
  practice_test : option PracticeTest;
  mistakes : list Mistake;
  a_debug : DebugInfo;
}.

(** ** Notion API client *)

Section Client.
Context {W : Type} (rt : Runtime W).

Record NotionClient := {
  token : string;
  headers : gmap string string;
}.

Definition NotionClient_new (tok : string) : NotionClient :=
  {| token := tok;
     headers := list_to_map
       [("Authorization", "Bearer " +:+ tok);
        ("Notion-Version", NOTION_API_VERSION);
        ("Content-Type", "application/json")] |}.

Definition option_truthy (o : option pyval) : bool :=
  match o with
  | Some v => Py.truthy v
  | None => false
  end.

(** The [url] and the [body] of a query. *)
Definition query_url (database_id : string) : string :=
  NOTION_BASE_URL +:+ "/databases/" +:+ database_id +:+ "/query".

Definition query_body (filter_obj sorts : option pyval) : pyval :=
  let body : gmap string pyval := ∅ in
  let body := if option_truthy filter_obj
              then <["filter" := default PNone filter_obj]> body else body in
  let body := if option_truthy sorts
              then <["sorts" := default PNone sorts]> body else body in
  PDict body.

(** Query a Notion database with optional filter and sorts. *)
Definition query_database (self : NotionClient) (database_id : string)
    (filter_obj sorts : option pyval) : M W pyval :=
  response ← post rt (query_url database_id) (headers self)
                     (query_body filter_obj sorts);
  if negb (Httpx.status_code response =? 200)%Z then
    raise (HTTPException 502
             ("Notion API error: "
              +:+ PyStr.str_of_Z (Httpx.status_code response)
              +:+ " - " +:+ Httpx.text response))
  else
    data ← lift (Httpx.json response);
    lift (Py.get data "results" (PList [])).

(** The [filter_obj] of the three kinds of query, and the [sorts] of the
    last one. *)
Definition date_filter (date_property date_value : string) : pyval :=
  PDict (list_to_map
    [("property", PStr date_property);
     ("date", PDict {[ "equals" := PStr date_value ]})]).

Definition text_filter (property_name value : string) : pyval :=
  PDict {[ "or" := PList
    [PDict (list_to_map [("property", PStr property_name);
                         ("rich_text", PDict {[ "equals" := PStr value ]})]);
     PDict (list_to_map [("property", PStr property_name);
                         ("title", PDict {[ "equals" := PStr value ]})])] ]}.

Definition unresolved_filter : pyval :=
  PDict (list_to_map
    [("property", PStr "Resolved");
     ("checkbox", PDict {[ "equals" := PBool false ]})]).

Definition newest_first : pyval :=
  PList [PDict (list_to_map
    [("timestamp", PStr "created_time");
     ("direction", PStr "descending")])].

(** Query database where a date property equals a specific date. *)
Definition query_by_date (self : NotionClient)
    (database_id date_property date_value : string) : M W pyval :=
  query_database self database_id
    (Some (date_filter date_property date_value)) None.

(** Query database where a rich_text/title property equals a value. *)
Definition query_by_text_equals (self : NotionClient)
    (database_id property_name value : string) : M W pyval :=
  query_database self database_id
    (Some (text_filter property_name value)) None.

(** Query Mistake Bank where Resolved = false, newest first. *)
Definition query_unresolved_mistakes (self : NotionClient)
    (database_id : string) : M W pyval :=
  query_database self database_id
    (Some unresolved_filter) (Some newest_first).

End Client.

(** ** The liveness probes *)

(** [GET /]: health check endpoint. *)
Definition health_check : pyval :=
  PDict (list_to_map
    [("status", PStr "healthy"); ("service", PStr "md102-study-webhook")]).

(** [GET /health]: alternative health check for some hosting platforms. *)
Definition health : pyval := PDict {[ "status" := PStr "ok" ]}.

(** ** The webhook *)

Section Webhook.
Context {W : Type} (rt : Runtime W) (cfg : Config).

(** What an f-string prints for a value. *)
Definition py_format (v : pyval) : string :=
  match v with
  | PStr s => s
  | PNone => "None"
  | PBool true => "True"
  | PBool false => "False"
  | PInt z => PyStr.str_of_Z z
  | PList _ | PDict _ => py_repr rt v
  end.

(** Steps 1 and 2: the answer that ends the request before any query, if
    there is one. *)
Definition missing_dbs : list string :=
  (if String.eqb (PLAN_DB_ID cfg) "" then ["PLAN_DB_ID"] else [])
  ++ (if String.eqb (OBJECTIVES_DB_ID cfg) "" then ["OBJECTIVES_DB_ID"] else [])
  ++ (if String.eqb (RESOURCES_DB_ID cfg) "" then ["RESOURCES_DB_ID"] else [])
  ++ (if String.eqb (PRACTICE_DB_ID cfg) "" then ["PRACTICE_DB_ID"] else [])
  ++ (if String.eqb (MISTAKES_DB_ID cfg) "" then ["MISTAKES_DB_ID"] else []).

Definition check_request (x_auth_token : option string)
    : option JSONResponse :=
  if String.eqb (AUTH_TOKEN cfg) "" then
    Some (error_response 500 "Server misconfigured: AUTH_TOKEN not set")
  else if match x_auth_token with
          | None => true
          | Some t => String.eqb t "" || negb (String.eqb t (AUTH_TOKEN cfg))
          end then
    Some (error_response 401 "Unauthorized: Invalid or missing X-AUTH-TOKEN")
  else if String.eqb (NOTION_TOKEN cfg) "" then
    Some (error_response 500 "Server misconfigured: NOTION_TOKEN not set")
  else match missing_dbs with
       | [] => None
       | _ => Some (error_response 500
                      ("Missing database IDs: " +:+ PyStr.join ", " missing_dbs))
       end.

(** Step 5: extract plan details. *)
Definition extract_plan_details (plan : pyval) : result PlanDetails :=
  phase ← text_of plan "Phase";
  focus_priority ← select_or_text plan "Focus Priority";
  session1_text ← text_of plan "Session 1 (1 hr) – Learn";
  session1_resources_raw ← text_of plan "Session 1 Resources (IDs/URLs)";
  session2_text ← text_of plan "Session 2 (1 hr) – Lab/Practice";
  session2_resources_raw ← text_of plan "Session 2 Resources (IDs/URLs)";
  focus_objectives_raw ← text_of plan "Focus objectives (IDs)";
  Ok {| phase := phase; focus_priority := focus_priority;
        session1_text := session1_text;
        session1_resources_raw := session1_resources_raw;
        session2_text := session2_text;
        session2_resources_raw := session2_resources_raw;
        focus_objectives_raw := focus_objectives_raw |}.

(** The body of the [try] in step 7, for one identifier: the entry to
    append, if the query found a page. *)
Definition fetch_objective (notion : NotionClient) (obj_id : string)
    : M W (option Objective) :=
  results ← query_by_text_equals rt notion (OBJECTIVES_DB_ID cfg)
              "Objective ID" obj_id;
  if Py.truthy results then
    obj_page ← lift (Py.index0 results);
    objective ← lift (text_of obj_page "Objective");
    exam_area ← lift (select_or_text obj_page "Exam Area");
    skill_group ← lift (select_or_text obj_page "Skill Group");
    priority ← lift (select_or_text obj_page "Priority");
    primary_resources ← lift (text_of obj_page "Primary Resources (IDs)");
    mret (Some {| o_id := obj_id; o_objective := objective;
                  o_exam_area := exam_area; o_skill_group := skill_group;
                  o_priority := priority;
                  o_primary_resources := primary_resources |})
  else mret None.

(** The body of the [try] in step 9, for one identifier. *)
Definition fetch_resource (notion : NotionClient) (res_id : string)
    : M W (option Resource) :=
  results ← query_by_text_equals rt notion (RESOURCES_DB_ID cfg)
              "Resource ID" res_id;
  if Py.truthy results then
    res_page ← lift (Py.index0 results);
    name ← lift (text_of res_page "Name");
    type ← lift (select_or_text res_page "Type");
    url ← lift (get_prop res_page "URL" ≫= extract_url);
    why ← lift (text_of res_page "Why it matters");
    mret (Some {| r_id := res_id; r_name := name; r_type := type;
                  r_url := url; r_why := why |})
  else mret None.

(** [for x in ids: try: <fetch x, append> except Exception: pass] *)
Fixpoint fetch_each {A} (fetch : string → M W (option A))
    (ids : list string) (found : list A) : M W (list A) :=
  match ids with
  | [] => mret found
  | x :: rest =>
      o ← try_except (fetch x) (λ _, mret None);
      fetch_each fetch rest (found ++ option_list o)
  end.

(** Step 8: the raw text the resource identifiers are parsed from. *)
Definition build_resource_ids_raw (d : PlanDetails) (objs : list Objective)
    : string :=
  foldl (λ raw obj,
           if String.eqb (o_primary_resources obj) "" then raw
           else raw +:+ ", " +:+ o_primary_resources obj)
        (session1_resources_raw d +:+ ", " +:+ session2_resources_raw d)
        objs.

(** The body of the [try] in step 10. *)
Definition fetch_practice_test (notion : NotionClient) (day : string)
    : M W (option PracticeTest) :=
  practice_results ← query_by_date rt notion (PRACTICE_DB_ID cfg) "Date" day;
  if Py.truthy practice_results then
    pt ← lift (Py.index0 practice_results);
    provider ← lift (select_or_text pt "Provider");
    test ← lift (text_of pt "Test");
    focus ← lift (text_of pt "Primary Focus");
    notes ← lift (text_of pt "Notes");
    mret (Some {| p_provider := provider; p_test := test;
                  p_focus := focus; p_notes := notes |})
  else mret None.

(** One turn of [for m in all_mistakes]: the entry to append, if the
    mistake belongs to one of today's objectives. *)
Definition shape_mistake (objective_id_set : gset string) (m : pyval)
    : result (option Mistake) :=
  mistake_obj_id ← text_of m "Objective ID";
  if bool_decide (mistake_obj_id ∈ objective_id_set) then
    summary ← text_of m "Mistake Summary";
    rule ← text_of m "Correct Rule";
    tip ← text_of m "Recognition Tip";
    Ok (Some {| m_objective_id := mistake_obj_id; m_summary := summary;
                m_rule := rule; m_tip := tip |})
  else Ok None.

(** The loop over [all_mistakes]: the list as the loop leaves it, and the
    exception that ended it early, if one did. *)
Fixpoint collect_mistakes (objective_id_set : gset string)
    (items : list pyval) (found : list Mistake)
    : list Mistake * option exn :=
  match items with
  | [] => (found, None)
  | m :: rest =>
      match shape_mistake objective_id_set m with
      | Ok o => collect_mistakes objective_id_set rest (found ++ option_list o)
      | Raise e => (found, Some e)
      end
  end.

(** Step 11: [mistakes] and [debug.mistakes_found] after the [try] block.
    The cut to three entries and the count are the last statements of the
    block, so an exception before them leaves the list as it is and the
    count untouched. *)
Definition fetch_mistakes (notion : NotionClient) (ids : list string)
    : M W (list Mistake * nat) :=
  try_except
    (all_mistakes ← query_unresolved_mistakes rt notion (MISTAKES_DB_ID cfg);
     let objective_id_set : gset string := list_to_set ids in
     items ← lift (Py.iter all_mistakes);
     match collect_mistakes objective_id_set items [] with
     | (found, Some _) => mret (found, 0)
     | (found, None) => mret (take 3 found, length (take 3 found))
     end)
    (λ _, mret ([], 0)).

(** Steps 6 to 11. *)
Definition assemble (notion : NotionClient) (request : WebhookRequest)
    (d : PlanDetails) : M W Assembly :=
  let objective_ids := parse_id_list (focus_objectives_raw d) in
  objectives ← fetch_each (fetch_objective notion) objective_ids [];
  let resource_ids := parse_id_list (build_resource_ids_raw d objectives) in
  resources ← fetch_each (fetch_resource notion) resource_ids [];
  practice_test ← try_except (fetch_practice_test notion (run_date request))
                             (λ _, mret None);
  '(mistakes, found) ← fetch_mistakes notion objective_ids;
  mret {| objective_ids := objective_ids; objectives := objectives;
          resource_ids := resource_ids; resources := resources;
          practice_test := practice_test; mistakes := mistakes;
          a_debug :=
            {| date := run_date request;
               objectives_count := length objective_ids;
               resources_count := length resource_ids;
               practice_test_found := bool_decide (is_Some practice_test);
               mistakes_found := found |} |}.

(** Step 12: the lines of the e-mail body. *)
Definition or_text (s alt : string) : string :=
  if String.eqb s "" then alt else s.

Definition objective_line (obj : Objective) : string :=
  let obj_line := "- " +:+ o_id obj +:+ " — " +:+ o_objective obj in
  let details :=
    (if Py.truthy (o_exam_area obj)
     then ["Exam Area: " +:+ py_format (o_exam_area obj)] else [])
    ++ (if Py.truthy (o_skill_group obj)
        then ["Skill: " +:+ py_format (o_skill_group obj)] else [])
    ++ (if Py.truthy (o_priority obj)
        then ["Priority: " +:+ py_format (o_priority obj)] else []) in
  match details with
  | [] => obj_line
  | _ => obj_line +:+ " (" +:+ PyStr.join " | " details +:+ ")"
  end.

Definition resource_lines (res : Resource) : list string :=
  ["- " +:+ r_id res +:+ " — " +:+ r_name res
   +:+ " (" +:+ py_format (r_type res) +:+ ")"]
  ++ (if Py.truthy (r_url res)
      then ["  URL: " +:+ py_format (r_url res)] else [])
  ++ (if String.eqb (r_why res) "" then [] else ["  Why: " +:+ r_why res]).

Definition practice_test_lines (pt : PracticeTest) : list string :=
  [py_format (p_provider pt) +:+ " — " +:+ p_test pt]
  ++ (if String.eqb (p_focus pt) "" then [] else ["Focus: " +:+ p_focus pt])
  ++ (if String.eqb (p_notes pt) "" then [] else ["Notes: " +:+ p_notes pt]).

Definition mistake_lines (m : Mistake) : list string :=
  ["- Mistake: " +:+ m_summary m]
  ++ (if String.eqb (m_rule m) "" then [] else ["  Rule: " +:+ m_rule m])
  ++ (if String.eqb (m_tip m) "" then [] else ["  Tip: " +:+ m_tip m]).

Definition rule_line : string := "================================".

Definition body_lines (request : WebhookRequest) (d : PlanDetails)
    (a : Assembly) : list string :=
  ["MD-102 DAILY STUDY BRIEF";
   "Date: " +:+ run_date request;
   "Phase: " +:+ phase d;
   "Priority: " +:+ py_format (focus_priority d);
   "";
   rule_line;
   "TODAY'S STUDY SESSIONS";
   rule_line;
   "SESSION 1 — LEARN (1 hour)";
   or_text (session1_text d) "(No details)";
   "Resources (IDs/URLs):";
   or_text (session1_resources_raw d) "(None)";
   "";
   "SESSION 2 — LAB / PRACTICE (1 hour)";
   or_text (session2_text d) "(No details)";
   "Resources (IDs/URLs):";
   or_text (session2_resources_raw d) "(None)";
   "";
   rule_line;
   "TODAY'S OBJECTIVES";
   rule_line]
  ++ match objectives a with
     | [] => ["(No objectives found)"]
     | objs => objective_line <$> objs
     end
  ++ [""; rule_line; "KEY RESOURCES"; rule_line]
  ++ match resources a with
     | [] => ["(No resources found)"]
     | ress => ress ≫= resource_lines
     end
  ++ [""; rule_line; "PRACTICE TEST (IF ANY)"; rule_line]
  ++ match practice_test a with
     | Some pt => practice_test_lines pt
     | None => ["(No practice test scheduled for today)"]
     end
  ++ [""; rule_line; "OPEN MISTAKES (IF ANY)"; rule_line]
  ++ match mistakes a with
     | [] => ["(No open mistakes for today's objectives)"]
     | ms => ms ≫= mistake_lines
     end
  ++ [""; rule_line; "COMPLETION CHECKLIST"; rule_line;
      "[ ] Session 1 Done"; "[ ] Session 2 Done"].

(** Step 13. *)
Definition build_subject (d : PlanDetails) : string :=
  if Py.truthy (focus_priority d)
  then "MD-102 — Daily Study Brief (" +:+ py_format (focus_priority d) +:+ ")"
  else "MD-102 — Daily Study Brief".

(** Step 14: the response of the "ok" path. *)
Definition ok_envelope (request : WebhookRequest) (d : PlanDetails)
    (a : Assembly) : WebhookResponse :=
  {| should_send := true;
     subject := build_subject d;
     body := PyStr.join (String "010" "") (body_lines request d a);
     reason := "ok";
     debug := a_debug a |}.

(** Step 3: the plan query, with its [except HTTPException]. *)
Definition plan_lookup (notion : NotionClient) (request : WebhookRequest)
    : M W (JSONResponse + pyval) :=
  try_except
    (inr <$> query_by_date rt notion (PLAN_DB_ID cfg) "Date" (run_date request))
    (λ e, match e with
          | HTTPException status detail =>
              mret (inl (error_response status detail))
          | _ => raise e
          end).

(** Steps 4 to 14, from the plan row on. *)
Definition build_digest (notion : NotionClient) (request : WebhookRequest)
    (plan : pyval) : M W JSONResponse :=
  let debug := DebugInfo_new (run_date request) in
  session1_done ← lift (get_prop plan "Session 1 Done" ≫= extract_checkbox);
  session2_done ← lift (get_prop plan "Session 2 Done" ≫= extract_checkbox);
  if Py.truthy session1_done && Py.truthy session2_done then
    mret (ok_response (WebhookResponse_new false "completed" debug))
  else
    d ← lift (extract_plan_details plan);
    a ← assemble notion request d;
    mret (ok_response (ok_envelope request d a)).

(** The endpoint [POST /webhook]. *)
Definition generate_study_email (request : WebhookRequest)
    (x_auth_token : option string) : M W JSONResponse :=
  match check_request x_auth_token with
  | Some refusal => mret refusal
  | None =>
      let debug := DebugInfo_new (run_date request) in
      let notion := NotionClient_new (NOTION_TOKEN cfg) in
      looked_up ← plan_lookup notion request;
      match looked_up with
      | inl failure => mret failure
      | inr plan_results =>
          if negb (Py.truthy plan_results) then
            mret (ok_response (WebhookResponse_new false "no_plan" debug))
          else
            plan ← lift (Py.index0 plan_results);
            build_digest notion request plan
      end
  end.

(** The handler registered for [Exception]. *)
Definition global_exception_handler (exc : exn) : JSONResponse :=
  {| status_code := 500;
     content := PDict (list_to_map
       [("should_send", PBool false);
        ("subject", PStr "");
        ("body", PStr "");
        ("reason", PStr "error");
        ("error", PStr (Py.str_of_exn exc));
        ("debug", PDict (list_to_map
           [("date", PStr "");
            ("objectives_count", PInt 0);
            ("resources_count", PInt 0);
            ("practice_test_found", PBool false);
            ("mistakes_found", PInt 0)]))]) |}.

(** What the application answers to [POST /webhook]: the answer of the
    endpoint, or that of the handler of the exception it raised. FastAPI
    answers an [HTTPException] by itself, with its status and detail. *)
Definition webhook (request : WebhookRequest) (x_auth_token : option string)
    (w : W) : JSONResponse * W :=
  match generate_study_email request x_auth_token w with
  | (Ok response, w') => (response, w')
  | (Raise (HTTPException status detail), w') =>
      ({| status_code := status;
          content := PDict {[ "detail" := PStr detail ]} |}, w')
  | (Raise exc, w') => (global_exception_handler exc, w')
  end.

End Webhook.

(** ** Vocabulary of the properties *)




(** The request passes steps 1 and 2: it carries the shared secret and the
    server has all of its settings. *)
Definition ready (cfg : Config) (x_auth_token : option string) : Prop :=
  AUTH_TOKEN cfg ≠ "" ∧ x_auth_token = Some (AUTH_TOKEN cfg)
  ∧ NOTION_TOKEN cfg ≠ "" ∧ PLAN_DB_ID cfg ≠ "" ∧ OBJECTIVES_DB_ID cfg ≠ ""
  ∧ RESOURCES_DB_ID cfg ≠ "" ∧ PRACTICE_DB_ID cfg ≠ ""
  ∧ MISTAKES_DB_ID cfg ≠ "".

(** The five fields of the response envelope. *)
Definition envelope_keys : gset string :=
  {[ "should_send"; "subject"; "body"; "reason"; "debug" ]}.

Definition has_envelope (c : pyval) : Prop :=
  match c with
  | PDict d => envelope_keys ⊆ dom d
  | _ => False
  end.

(** [c["reason"]], when the answer has one. *)
Definition reason_of (c : pyval) : option pyval :=
  match c with
  | PDict d => d !! "reason"
  | _ => None
  end.

(** A record as Notion sends it, as far as the extractors look: a dict whose
    ["properties"] is a dict of property containers; in a container, the
    [rich_text] and [title] values are lists of dicts with a string
    [plain_text], and the [select] and [date] values are null or a dict. *)
Definition wf_text_item (v : pyval) : bool :=
  match v with
  | PDict i =>
      match i !! "plain_text" with
      | Some (PStr _) | None => true
      | _ => false
      end
  | _ => false
  end.

Definition wf_text_array (o : option pyval) : bool :=
  match o with
  | None => true
  | Some (PList items) => forallb wf_text_item items
  | Some _ => false
  end.

Definition wf_object (o : option pyval) : bool :=
  match o with
  | None | Some PNone | Some (PDict _) => true
  | Some _ => false
  end.

Definition wf_prop (v : pyval) : bool :=
  match v with
  | PDict d =>
      wf_text_array (d !! "rich_text") && wf_text_array (d !! "title")
      && wf_object (d !! "select") && wf_object (d !! "date")
  | _ => false
  end.


(** Code that does not talk to Notion raises no [HTTPException]. *)
Definition plain_error {A} (r : result A) : Prop :=
  match r with
  | Raise (HTTPException _ _) => False
  | _ => True
  end.


Section Vocabulary.
Context {W : Type} (rt : Runtime W) (cfg : Config).


(** The request gets to step 5 and on: it passes the checks, the plan
    query finds [plan] as its first row, the row is not fully completed, its
    details are [d], and steps 6 to 11 leave the local variables [a] and the
    outside world in [w']. *)
Definition reaches_assembly (request : WebhookRequest)
    (x_auth_token : option string) (w : W)
    (d : PlanDetails) (a : Assembly) (w' : W) : Prop :=
  let notion := NotionClient_new (NOTION_TOKEN cfg) in
  ∃ plan_results plan w1 session1_done session2_done,
    ready cfg x_auth_token
    ∧ query_by_date rt notion (PLAN_DB_ID cfg) "Date" (run_date request) w
      = (Ok plan_results, w1)
    ∧ Py.index0 plan_results = Ok plan
    ∧ get_prop plan "Session 1 Done" ≫= extract_checkbox = Ok session1_done
    ∧ get_prop plan "Session 2 Done" ≫= extract_checkbox = Ok session2_done
    ∧ Py.truthy session1_done && Py.truthy session2_done = false
    ∧ extract_plan_details plan = Ok d
    ∧ assemble rt cfg notion request d w1 = (Ok a, w').

End Vocabulary.

(** *** Vocabulary of the further properties *)

(** One step of [int] on a run of digits. *)
Definition digit_step (acc : N) (c : ascii) : N :=
  (10 * acc + (PyStr.byte c - 48))%N.


(** A run of text [item] whose plain text is [s]; a run without a
    [plain_text] counts as the empty text. *)
Definition text_run (item : pyval) (s : string) : Prop :=
  ∃ i, item = PDict i
       ∧ (i !! "plain_text" = Some (PStr s)
          ∨ i !! "plain_text" = None ∧ s = "").

(** ** A scripted Notion for the examples *)

Module Example.

Definition cfg : Config :=
  {| NOTION_TOKEN := "secret_abc"; AUTH_TOKEN := "shared-secret";
     PLAN_DB_ID := "plan"; OBJECTIVES_DB_ID := "objectives";
     RESOURCES_DB_ID := "resources"; PRACTICE_DB_ID := "practice";
     MISTAKES_DB_ID := "mistakes" |}.

Definition request : WebhookRequest :=
  {| run_date := "2025-03-01"; timezone := "America/New_York" |}.

Definition x_auth_token : option string := Some "shared-secret".

Definition rich_text (s : string) : pyval :=
  PDict (list_to_map
    [("type", PStr "rich_text");
     ("rich_text", PList [PDict {[ "plain_text" := PStr s ]}])]).

Definition checkbox (b : bool) : pyval :=
  PDict (list_to_map [("type", PStr "checkbox"); ("checkbox", PBool b)]).

Definition select (name : string) : pyval :=
  PDict (list_to_map
    [("type", PStr "select"); ("select", PDict {[ "name" := PStr name ]})]).

Definition page (props : list (string * pyval)) : pyval :=
  PDict {[ "properties" := PDict (list_to_map props) ]}.

(** The value a text query asks for: [filter.or[0].rich_text.equals]. *)
Definition asked (query : pyval) : string :=
  match query with
  | PDict q =>
      match q !! "filter" with
      | Some (PDict f) =>
          match f !! "or" with
          | Some (PList (PDict c :: _)) =>
              match c !! "rich_text" with
              | Some (PDict e) =>
                  match e !! "equals" with
                  | Some (PStr v) => v
                  | _ => ""
                  end
              | _ => ""
              end
          | _ => ""
          end
      | _ => ""
      end
  | _ => ""
  end.

Definition found (records : list pyval) : result Httpx.Response :=
  Ok {| Httpx.status_code := 200; Httpx.text := "";
        Httpx.json := Ok (PDict {[ "results" := PList records ]}) |}.

Definition failed (status : Z) (text : string) : result Httpx.Response :=
  Ok {| Httpx.status_code := status; Httpx.text := text;
        Httpx.json := Raise (PyError "JSONDecodeError" "Expecting value") |}.

(** A Notion that answers by table; the state of the world is the number
    of requests it has answered. *)
Definition server (plan : result Httpx.Response)
    (objective resource : string → result Httpx.Response)
    (practice mistake_bank : result Httpx.Response) : Runtime nat :=
  {| post := λ url _ query n,
       (if String.eqb url "https://api.notion.com/v1/databases/plan/query"
        then plan
        else if String.eqb url
                  "https://api.notion.com/v1/databases/objectives/query"
        then objective (asked query)
        else if String.eqb url
                  "https://api.notion.com/v1/databases/resources/query"
        then resource (asked query)
        else if String.eqb url
                  "https://api.notion.com/v1/databases/practice/query"
        then practice
        else mistake_bank, S n);
     py_repr := λ _, "" |}.

Definition plan_row (done1 done2 : bool) : pyval :=
  page [("Phase", rich_text "Phase 1");
        ("Focus Priority", select "High");
        ("Session 1 (1 hr) – Learn", rich_text "Read about Entra");
        ("Session 1 Resources (IDs/URLs)", rich_text "RES-1");
        ("Session 2 (1 hr) – Lab/Practice", rich_text "Enrol a device");
        ("Session 2 Resources (IDs/URLs)", rich_text "RES-2");
        ("Focus objectives (IDs)", rich_text "OBJ-01..02");
        ("Session 1 Done", checkbox done1);
        ("Session 2 Done", checkbox done2)].

Definition mistake (obj_id summary : string) : pyval :=
  page [("Objective ID", rich_text obj_id);
        ("Mistake Summary", rich_text summary);
        ("Correct Rule", rich_text "");
        ("Recognition Tip", rich_text "")].

Definition resource_page (name : string) : pyval :=
  page [("Name", rich_text name); ("Type", select "Doc");
        ("URL", PDict (list_to_map [("type", PStr "url");
                                    ("url", PStr "https://example.org")]));
        ("Why it matters", rich_text "")].

(** Today's plan is open, every objective query fails, one resource is
    found, and five mistakes are open, four of them for today's
    objectives. *)
Definition objectives_down : Runtime nat :=
  server (found [plan_row false true])
    (λ _, failed 500 "down")
    (λ res_id, if String.eqb res_id "RES-1" then found [resource_page "Guide"]
               else failed 429 "slow down")
    (found [])
    (found [mistake "OBJ-01" "mixed up join types";
            mistake "OBJ-09" "other day";
            mistake "OBJ-02" "forgot the licence";
            mistake "OBJ-01" "wrong portal";
            mistake "OBJ-02" "skipped the sync"]).

(** What the webhook reads from that plan row, and the local variables it
    ends with. *)
Definition details : PlanDetails :=
  {| phase := "Phase 1"; focus_priority := PStr "High";
     session1_text := "Read about Entra"; session1_resources_raw := "RES-1";
     session2_text := "Enrol a device"; session2_resources_raw := "RES-2";
     focus_objectives_raw := "OBJ-01..02" |}.

Definition assembly : Assembly :=
  {| objective_ids := ["OBJ-01"; "OBJ-02"];
     objectives := [];
     resource_ids := ["RES-1"; "RES-2"];
     resources :=
       [{| r_id := "RES-1"; r_name := "Guide"; r_type := PStr "Doc";
           r_url := PStr "https://example.org"; r_why := "" |}];
     practice_test := None;
     mistakes :=
       [{| m_objective_id := "OBJ-01"; m_summary := "mixed up join types";
           m_rule := ""; m_tip := "" |};
        {| m_objective_id := "OBJ-02"; m_summary := "forgot the licence";
           m_rule := ""; m_tip := "" |};
        {| m_objective_id := "OBJ-01"; m_summary := "wrong portal";
           m_rule := ""; m_tip := "" |}];
     a_debug :=
       {| date := "2025-03-01"; objectives_count := 2; resources_count := 2;
          practice_test_found := false; mistakes_found := 3 |} |}.

(** The mistakes table answers with four mistakes for today's objectives
    and then with a record whose properties are null. *)
Definition broken_bank : Runtime nat :=
  server (found [plan_row false true])
    (λ _, found []) (λ _, found []) (found [])
    (found [mistake "OBJ-01" "mixed up join types";
            mistake "OBJ-02" "forgot the licence";
            mistake "OBJ-01" "wrong portal";
            mistake "OBJ-02" "skipped the sync";
            PDict {[ "properties" := PNone ]}]).

(** The plan table answers with an error. *)
Definition plan_down : Runtime nat :=
  server (failed 503 "Service Unavailable")
    (λ _, found []) (λ _, found []) (found []) (found []).

(** No plan row for the day, and a plan row with both sessions done. *)
Definition no_rows : Runtime nat :=
  server (found []) (λ _, found []) (λ _, found []) (found []) (found []).

Definition all_done : Runtime nat :=
  server (found [plan_row true true])
    (λ _, found []) (λ _, found []) (found []) (found []).

End Example.

(** * Properties *)

(** ** The range expander *)

Section Expander.
Implicit Types (ids : gset string) (l : list string) (t s : string).

Lemma append_String c s t : String c s +:+ t = String c (s +:+ t).
Proof. reflexivity. Qed.

Lemma append_length s t :
  String.length (s +:+ t) = String.length s + String.length t.
Proof. induction s as [|c s IH]; [done|]. rewrite append_String. simpl. by rewrite IH. Qed.

Lemma sorted_perm ids : sorted ids ≡ₚ elements ids.
Proof. apply merge_sort_Permutation. Qed.

Lemma sorted_Sorted ids : Sorted String.le (sorted ids).
Proof. apply (Sorted_merge_sort String.le). Qed.

Lemma sorted_NoDup ids : NoDup (sorted ids).
Proof. rewrite sorted_perm. apply NoDup_elements. Qed.

Lemma elem_of_sorted ids x : x ∈ sorted ids ↔ x ∈ ids.
Proof. rewrite sorted_perm. apply elem_of_elements. Qed.


Lemma add_all_spec ids l : add_all ids l = list_to_set l ∪ ids.
Proof.
  unfold add_all. revert ids.
  induction l as [|x l IH]; intros ids; simpl; [set_solver|].
  rewrite IH. set_solver.
Qed.









Lemma parse_id_list_unfold raw :
  raw ≠ "" → parse_id_list raw = sorted (foldl add_token ∅ (tokens_of raw)).
Proof. intros H. unfold parse_id_list. by destruct raw. Qed.


Lemma zeros_length n : String.length (PyStr.zeros n) = n.
Proof. induction n; simpl; congruence. Qed.

Lemma zfill_length width s :
  String.length (PyStr.zfill width s) = width `max` String.length s.
Proof. unfold PyStr.zfill. rewrite append_length, zeros_length. lia. Qed.

Lemma elem_of_range start stop i :
  i ∈ PyStr.range start stop ↔ (start ≤ i < stop)%N.
Proof.
  unfold PyStr.range. rewrite list_elem_of_fmap. split.
  - intros (k & -> & Hk%elem_of_seq). lia.
  - intros H. exists (N.to_nat (i - start)). rewrite elem_of_seq. split; lia.
Qed.

Lemma elem_of_expand_range prefix g_start g_end x :
  x ∈ expand_range prefix g_start g_end ↔
  ∃ i, (PyStr.int_of_digits g_start ≤ i ≤ PyStr.int_of_digits g_end)%N
       ∧ x = prefix +:+ PyStr.zfill (String.length g_start) (PyStr.str_of_N i).
Proof.
  unfold expand_range. rewrite list_elem_of_fmap.
  split; intros (i & H1 & H2); exists i.
  - apply elem_of_range in H2. split; [lia|done].
  - split; [done|]. apply elem_of_range. lia.
Qed.

End Expander.

(** ** The extractors on well-formed records *)

Section Extractors.
Implicit Types (v prop page : pyval) (d : gmap string pyval).

Lemma traverse_plain_text items :
  forallb wf_text_item items = true →
  ∃ ss, traverse (λ item, Py.get item "plain_text" (PStr "")) items
        = Ok (PStr <$> ss).
Proof.
  induction items as [|item items IH]; simpl.
  - by exists [].
  - intros [Hi [ss Hss]%IH]%andb_true_iff. rewrite Hss.
    destruct item as [| | | | |i]; try done. simpl in *.
    destruct (i !! "plain_text") as [[| | |s| |]|]; try done.
    + by exists (s :: ss).
    + by exists ("" :: ss).
Qed.

Lemma join_items_strings n ss : Py.join_items n (PStr <$> ss) = Ok ss.
Proof.
  revert n. induction ss as [|s ss IH]; intros n; simpl; [done|].
  by rewrite IH.
Qed.

Lemma text_array_get d key :
  wf_text_array (d !! key) = true →
  ∃ items, default (PList []) (d !! key) = PList items
           ∧ forallb wf_text_item items = true.
Proof.
  destruct (d !! key) as [[| | | |items|]|]; try done; simpl.
  - by exists items.
  - by exists [].
Qed.

Lemma extract_rich_text_wf prop :
  wf_prop prop = true → ∃ s, extract_rich_text prop = Ok s.
Proof.
  destruct prop as [| | | | |d]; try done. simpl.
  rewrite !andb_true_iff. intros [[[Hr Ht] _] _].
  unfold extract_rich_text.
  destruct (negb _); [by eexists|]. simpl.
  destruct (text_array_get _ _ Hr) as (ir & -> & Hir).
  destruct (text_array_get _ _ Ht) as (it & -> & Hit).
  assert (∃ items, (if Py.eq_str (default (PStr "") (d !! "type")) "rich_text"
             then Ok (PList ir)
             else if Py.eq_str (default (PStr "") (d !! "type")) "title"
             then Ok (PList it)
             else Py.or_else (PList ir) (Ok (PList it))) = Ok (PList items)
            ∧ forallb wf_text_item items = true) as (items & -> & Hitems).
  { repeat case_match; eauto. unfold Py.or_else. case_match; eauto. }
  simpl. destruct items as [|i items]; [by eexists|].
  cbn [Py.truthy negb Py.iter mbind result_bind].
  destruct (traverse_plain_text _ Hitems) as [ss ->].
  cbn [mbind result_bind]. unfold Py.join_empty. rewrite join_items_strings.
  by eexists.
Qed.


Lemma extract_checkbox_wf prop :
  wf_prop prop = true → ∃ v, extract_checkbox prop = Ok v.
Proof.
  destruct prop as [| | | | |d]; try done. intros _.
  unfold extract_checkbox. destruct (negb _); by eexists.
Qed.

Lemma extract_url_wf prop :
  wf_prop prop = true → ∃ v, extract_url prop = Ok v.
Proof.
  intros Hwf. destruct (extract_rich_text_wf _ Hwf) as [s Hs].
  destruct prop as [| | | | |d]; try done.
  unfold extract_url. destruct (negb _); [by eexists|]. simpl.
  repeat case_match; try by eexists.
  - unfold Py.or_else. case_match; by eexists.
  - rewrite Hs. by eexists.
Qed.

Lemma wf_prop_empty : wf_prop (PDict ∅) = true.
Proof. reflexivity. Qed.






End Extractors.

(** ** Computations over the outside world *)

Section Monad.
Context {W : Type}.

Lemma bind_Ok {A B} (m : M W A) (f : A → M W B) w b w' :
  (m ≫= f) w = (Ok b, w') ↔ ∃ a w1, m w = (Ok a, w1) ∧ f a w1 = (Ok b, w').
Proof.
  unfold mbind, M_bind. split.
  - destruct (m w) as [[a|e] w1]; [eauto|done].
  - by intros (a & w1 & -> & ?).
Qed.

Lemma bind_Raise {A B} (m : M W A) (f : A → M W B) w e w' :
  (m ≫= f) w = (Raise e, w') ↔
  m w = (Raise e, w') ∨ ∃ a w1, m w = (Ok a, w1) ∧ f a w1 = (Raise e, w').
Proof.
  unfold mbind, M_bind. split.
  - destruct (m w) as [[a|e'] w1]; [eauto|]. intros [= -> ->]. by left.
  - by intros [->|(a & w1 & -> & ?)].
Qed.

Lemma lift_Ok {A} (r : result A) (w : W) a w' :
  lift r w = (Ok a, w') ↔ r = Ok a ∧ w' = w.
Proof. unfold lift. naive_solver. Qed.

Lemma mret_Ok {A} (x : A) (w : W) a w' :
  mret (M := M W) x w = (Ok a, w') ↔ a = x ∧ w' = w.
Proof. unfold mret, M_ret. naive_solver. Qed.

Lemma fmap_Ok {A B} (f : A → B) (m : M W A) w b w' :
  (f <$> m) w = (Ok b, w') ↔ ∃ a, m w = (Ok a, w') ∧ b = f a.
Proof.
  unfold fmap, M_fmap.
  destruct (m w) as [[a|e] w1]; naive_solver.
Qed.

(** A [try] whose handler returns a value never raises. *)
Lemma try_except_total {A} (m : M W A) (x : A) w :
  ∃ a w', try_except m (λ _, mret x) w = (Ok a, w').
Proof.
  unfold try_except. destruct (m w) as [[a|e] w1]; by eexists _, _.
Qed.

Lemma try_except_Ok {A} (m : M W A) (x : A) w a w' :
  try_except m (λ _, mret x) w = (Ok a, w') ↔
  m w = (Ok a, w') ∨ ∃ e, m w = (Raise e, w') ∧ a = x.
Proof.
  unfold try_except, mret, M_ret.
  destruct (m w) as [[a'|e] w1]; naive_solver.
Qed.

End Monad.


(** ** The steps of the webhook *)

Section Steps.
Context {W : Type} (rt : Runtime W) (cfg : Config).
Implicit Types (w : W) (notion : NotionClient) (request : WebhookRequest).

Lemma fetch_each_total {A} (fetch : string → M W (option A)) ids found w :
  ∃ l w', fetch_each fetch ids found w = (Ok l, w').
Proof.
  revert found w. induction ids as [|x ids IH]; intros found w; simpl.
  - by eexists _, _.
  - destruct (try_except_total (fetch x) None w) as (o & w1 & Ho).
    destruct (IH (found ++ option_list o) w1) as (l & w' & Hl).
    exists l, w'. apply bind_Ok. eauto.
Qed.




(** *** Queries *)

Lemma query_database_Ok notion database_id filter_obj sorts w all w' :
  query_database rt notion database_id filter_obj sorts w = (Ok all, w') ↔
  ∃ reply data,
    post rt (query_url database_id) (headers notion)
      (query_body filter_obj sorts) w = (Ok reply, w')
    ∧ Httpx.status_code reply = 200%Z
    ∧ Httpx.json reply = Ok data
    ∧ Py.get data "results" (PList []) = Ok all.
Proof.
  unfold query_database. rewrite bind_Ok. split.
  - intros (reply & w1 & Hpost & H).
    destruct (Z.eqb_spec (Httpx.status_code reply) 200) as [Hs|Hs];
      simpl in H; [|done].
    apply bind_Ok in H as (data & w2 & [Hj ->]%lift_Ok & [Hg ->]%lift_Ok).
    by exists reply, data.
  - intros (reply & data & Hpost & Hs & Hj & Hg).
    exists reply, w'. split; [done|]. rewrite Hs. simpl.
    apply bind_Ok. exists data, w'. by rewrite !lift_Ok.
Qed.

Lemma query_database_upstream_error notion database_id filter_obj sorts w
    reply w' :
  post rt (query_url database_id) (headers notion)
    (query_body filter_obj sorts) w = (Ok reply, w') →
  Httpx.status_code reply ≠ 200%Z →
  query_database rt notion database_id filter_obj sorts w
  = (Raise (HTTPException 502
       ("Notion API error: " +:+ PyStr.str_of_Z (Httpx.status_code reply)
        +:+ " - " +:+ Httpx.text reply)), w').
Proof.
  intros Hpost Hs. unfold query_database, mbind, M_bind. rewrite Hpost.
  by destruct (Z.eqb_spec (Httpx.status_code reply) 200).
Qed.

Lemma query_database_fault notion database_id filter_obj sorts w e w' :
  post rt (query_url database_id) (headers notion)
    (query_body filter_obj sorts) w = (Raise e, w') →
  query_database rt notion database_id filter_obj sorts w = (Raise e, w').
Proof.
  intros Hpost. unfold query_database, mbind, M_bind. by rewrite Hpost.
Qed.


(** *** Step 11 *)



Lemma fetch_mistakes_total notion ids w :
  ∃ ms n w', fetch_mistakes rt cfg notion ids w = (Ok (ms, n), w').
Proof.
  destruct (try_except_total
    (all_mistakes ← query_unresolved_mistakes rt notion (MISTAKES_DB_ID cfg);
     items ← lift (Py.iter all_mistakes);
     match collect_mistakes (list_to_set ids) items [] with
     | (found, Some _) => mret (found, 0)
     | (found, None) => mret (take 3 found, length (take 3 found))
     end) ([], 0) w) as ([ms n] & w' & H).
  by exists ms, n, w'.
Qed.

(** The three ways step 11 can go. *)
Lemma fetch_mistakes_cases notion ids w ms n w' :
  fetch_mistakes rt cfg notion ids w = (Ok (ms, n), w') →
  ((∃ e, query_unresolved_mistakes rt notion (MISTAKES_DB_ID cfg) w
         = (Raise e, w'))
   ∧ ms = [] ∧ n = 0)
  ∨ ∃ all, query_unresolved_mistakes rt notion (MISTAKES_DB_ID cfg) w
           = (Ok all, w')
     ∧ ((∃ e, Py.iter all = Raise e) ∧ ms = [] ∧ n = 0
        ∨ ∃ items, Py.iter all = Ok items
           ∧ match collect_mistakes (list_to_set ids) items [] with
             | (found, Some _) => ms = found ∧ n = 0
             | (found, None) => ms = take 3 found ∧ n = length ms
             end).
Proof.
  unfold fetch_mistakes. intros [H|(e & H & [= -> ->])]%try_except_Ok.
  - apply bind_Ok in H as (all & w1 & Hq & H). right. exists all.
    apply bind_Ok in H as (items & w2 & [Hi ->]%lift_Ok & H).
    destruct (collect_mistakes _ items []) as [found [e|]] eqn:Hc;
      apply mret_Ok in H as [[= -> ->] ->];
      (split; [done|]); right; exists items; by rewrite Hc.
  - apply bind_Raise in H as [H|(all & w1 & Hq & H)]; [left; eauto|].
    right. exists all.
    apply bind_Raise in H as [H|(items & w2 & [Hi ->]%lift_Ok & H)].
    + unfold lift in H. simplify_eq. split; [done|]. left. eauto.
    + by destruct (collect_mistakes _ items []) as [found [?|]].
Qed.



End Steps.

(** ** The paths of the webhook *)

Section PlainErrors.
Implicit Types (v prop page : pyval).

Lemma plain_error_bind {A B} (m : result A) (f : A → result B) :
  plain_error m → (∀ a, plain_error (f a)) → plain_error (m ≫= f).
Proof. destruct m as [a|[]]; simpl; auto. Qed.

Lemma plain_error_fmap {A B} (f : A → B) (m : result A) :
  plain_error m → plain_error (f <$> m).
Proof. by destruct m as [a|[]]. Qed.

Lemma plain_error_get v key dflt : plain_error (Py.get v key dflt).
Proof. by destruct v. Qed.

Lemma plain_error_iter v : plain_error (Py.iter v).
Proof. by destruct v. Qed.

Lemma plain_error_index0 v : plain_error (Py.index0 v).
Proof. destruct v as [| | |s|[|]|]; try done. simpl. by destruct (Py.chars s). Qed.

Lemma plain_error_traverse {A B} (f : A → result B) l :
  (∀ x, plain_error (f x)) → plain_error (traverse f l).
Proof.
  intros Hf. induction l as [|x l IH]; [done|]. simpl.
  apply plain_error_bind; [done|]. intros y.
  apply plain_error_bind; [done|]. done.
Qed.

Lemma plain_error_join_items n l : plain_error (Py.join_items n l).
Proof.
  revert n. induction l as [|v l IH]; intros n; [done|].
  destruct v; try done. simpl. apply plain_error_bind; [done|]. done.
Qed.

Lemma plain_error_or_else v r : plain_error r → plain_error (Py.or_else v r).
Proof. unfold Py.or_else. by destruct (Py.truthy v). Qed.

Create HintDb plain.

#[local] Hint Resolve plain_error_get plain_error_iter plain_error_index0
  plain_error_join_items plain_error_or_else plain_error_fmap : plain.

Ltac plain :=
  repeat first
    [ done
    | progress eauto with plain
    | apply plain_error_bind; [|intros ?]
    | apply plain_error_traverse; intros ?
    | apply plain_error_or_else
    | apply plain_error_fmap
    | match goal with
      | |- plain_error (if ?b then _ else _) => destruct b
      end ].

Lemma plain_error_rich_text prop : plain_error (extract_rich_text prop).
Proof. unfold extract_rich_text, Py.join_empty. plain. Qed.

Lemma plain_error_select prop : plain_error (extract_select prop).
Proof. unfold extract_select. plain. Qed.

Lemma plain_error_checkbox prop : plain_error (extract_checkbox prop).
Proof. unfold extract_checkbox. plain. Qed.

Lemma plain_error_get_prop page name : plain_error (get_prop page name).
Proof. unfold get_prop. plain. Qed.

Lemma plain_error_text_of page name : plain_error (text_of page name).
Proof.
  unfold text_of. apply plain_error_bind;
    auto using plain_error_get_prop, plain_error_rich_text.
Qed.

Lemma plain_error_select_or_text page name :
  plain_error (select_or_text page name).
Proof.
  unfold select_or_text.
  apply plain_error_bind; [apply plain_error_get_prop|intros ?].
  apply plain_error_bind; [apply plain_error_select|intros ?].
  apply plain_error_or_else.
  apply plain_error_bind; [apply plain_error_get_prop|intros ?].
  apply plain_error_fmap, plain_error_rich_text.
Qed.

Lemma plain_error_flag page name :
  plain_error (get_prop page name ≫= extract_checkbox).
Proof.
  apply plain_error_bind;
    auto using plain_error_get_prop, plain_error_checkbox.
Qed.

Lemma plain_error_plan_details plan :
  plain_error (extract_plan_details plan).
Proof.
  unfold extract_plan_details.
  repeat (apply plain_error_bind;
          [first [apply plain_error_text_of|apply plain_error_select_or_text]
          |intros ?]).
  done.
Qed.

End PlainErrors.

Section Paths.
Context {W : Type} (rt : Runtime W) (cfg : Config).
Implicit Types (w : W) (notion : NotionClient) (request : WebhookRequest).

Lemma check_request_ready x_auth_token :
  ready cfg x_auth_token ↔ check_request cfg x_auth_token = None.
Proof.
  unfold ready, check_request, missing_dbs.
  destruct cfg as [nt au p o r pr m]; simpl.
  destruct (String.eqb_spec au "") as [|Ha]; [naive_solver|].
  destruct x_auth_token as [t|]; [|naive_solver].
  destruct (String.eqb_spec t "") as [Ht|Ht]; simpl; [naive_solver|].
  destruct (String.eqb_spec t au) as [Hne|Hne]; simpl; [|naive_solver].
  destruct (String.eqb_spec nt "") as [|Hn]; [naive_solver|].
  destruct (String.eqb_spec p ""), (String.eqb_spec o ""),
    (String.eqb_spec r ""), (String.eqb_spec pr ""),
    (String.eqb_spec m ""); simpl; naive_solver.
Qed.

Lemma check_request_refusal x_auth_token refusal :
  check_request cfg x_auth_token = Some refusal →
  ∃ status msg, refusal = error_response status msg.
Proof.
  unfold check_request. repeat case_match; intros; simplify_eq; by eexists _, _.
Qed.

(** Step 3, by the outcome of the query. *)
Lemma plan_lookup_eq notion request w :
  plan_lookup rt cfg notion request w
  = match query_by_date rt notion (PLAN_DB_ID cfg) "Date" (run_date request) w
    with
    | (Ok plan_results, w1) => (Ok (inr plan_results), w1)
    | (Raise (HTTPException status detail), w1) =>
        (Ok (inl (error_response status detail)), w1)
    | (Raise (PyError cls msg), w1) => (Raise (PyError cls msg), w1)
    end.
Proof.
  unfold plan_lookup, try_except, fmap, M_fmap.
  by destruct (query_by_date _ _ _ _ _ w) as [[?|[]] ?].
Qed.

(** Steps 6 to 11 never raise. *)
Lemma assemble_total notion request d w :
  ∃ a w', assemble rt cfg notion request d w = (Ok a, w').
Proof.
  unfold assemble.
  destruct (fetch_each_total (fetch_objective rt cfg notion)
              (parse_id_list (focus_objectives_raw d)) [] w)
    as (objs & w2 & Ho).
  destruct (fetch_each_total (fetch_resource rt cfg notion)
              (parse_id_list (build_resource_ids_raw d objs)) [] w2)
    as (ress & w3 & Hr).
  destruct (try_except_total
              (fetch_practice_test rt cfg notion (run_date request)) None w3)
    as (pt & w4 & Hp).
  destruct (fetch_mistakes_total rt cfg notion
              (parse_id_list (focus_objectives_raw d)) w4)
    as (ms & n & w' & Hm).
  eexists _, w'. apply bind_Ok. exists objs, w2. split; [done|].
  apply bind_Ok. exists ress, w3. split; [done|].
  apply bind_Ok. exists pt, w4. split; [done|].
  apply bind_Ok. exists (ms, n), w'. split; [done|]. by apply mret_Ok.
Qed.

(** The local variables steps 6 to 11 leave behind. *)
Lemma assemble_Ok notion request d w a w' :
  assemble rt cfg notion request d w = (Ok a, w') →
  ∃ w2 w3 w4,
    fetch_each (fetch_objective rt cfg notion) (objective_ids a) [] w
      = (Ok (objectives a), w2)
    ∧ fetch_each (fetch_resource rt cfg notion) (resource_ids a) [] w2
      = (Ok (resources a), w3)
    ∧ try_except (fetch_practice_test rt cfg notion (run_date request))
        (λ _, mret None) w3 = (Ok (practice_test a), w4)
    ∧ fetch_mistakes rt cfg notion (objective_ids a) w4
      = (Ok (mistakes a, mistakes_found (a_debug a)), w')
    ∧ objective_ids a = parse_id_list (focus_objectives_raw d)
    ∧ resource_ids a
      = parse_id_list (build_resource_ids_raw d (objectives a))
    ∧ a_debug a
      = {| date := run_date request;
           objectives_count := length (objective_ids a);
           resources_count := length (resource_ids a);
           practice_test_found := bool_decide (is_Some (practice_test a));
           mistakes_found := mistakes_found (a_debug a) |}.
Proof.
  unfold assemble. intros H.
  apply bind_Ok in H as (objs & w2 & Ho & H).
  apply bind_Ok in H as (ress & w3 & Hr & H).
  apply bind_Ok in H as (pt & w4 & Hp & H).
  apply bind_Ok in H as ([ms n] & w5 & Hm & H).
  apply mret_Ok in H as [-> ->]. simpl. by exists w2, w3, w4.
Qed.

(** Steps 4 to 14 for a plan row that can be read. *)
Lemma build_digest_completed notion request plan w s1 s2 :
  get_prop plan "Session 1 Done" ≫= extract_checkbox = Ok s1 →
  get_prop plan "Session 2 Done" ≫= extract_checkbox = Ok s2 →
  Py.truthy s1 && Py.truthy s2 = true →
  build_digest rt cfg notion request plan w
  = (Ok (ok_response (WebhookResponse_new false "completed"
                        (DebugInfo_new (run_date request)))), w).
Proof.
  intros H1 H2 Hb. unfold build_digest.
  rewrite H1, H2. unfold mbind at 1 2, M_bind, lift. by rewrite Hb.
Qed.

Lemma build_digest_ok notion request plan w s1 s2 d a w' :
  get_prop plan "Session 1 Done" ≫= extract_checkbox = Ok s1 →
  get_prop plan "Session 2 Done" ≫= extract_checkbox = Ok s2 →
  Py.truthy s1 && Py.truthy s2 = false →
  extract_plan_details plan = Ok d →
  assemble rt cfg notion request d w = (Ok a, w') →
  build_digest rt cfg notion request plan w
  = (Ok (ok_response (ok_envelope rt request d a)), w').
Proof.
  intros H1 H2 Hb Hd Ha. unfold build_digest.
  rewrite H1, H2, Hd. unfold mbind, M_bind, lift. by rewrite Hb, Ha.
Qed.

(** Where [build_digest] ends. *)
Lemma build_digest_cases notion request plan w r w' :
  build_digest rt cfg notion request plan w = (r, w') →
  match r with
  | Ok response =>
      response = ok_response (WebhookResponse_new false "completed"
                                (DebugInfo_new (run_date request)))
      ∨ ∃ s1 s2 d a,
          get_prop plan "Session 1 Done" ≫= extract_checkbox = Ok s1
          ∧ get_prop plan "Session 2 Done" ≫= extract_checkbox = Ok s2
          ∧ Py.truthy s1 && Py.truthy s2 = false
          ∧ extract_plan_details plan = Ok d
          ∧ assemble rt cfg notion request d w = (Ok a, w')
          ∧ response = ok_response (ok_envelope rt request d a)
  | Raise (HTTPException _ _) => False
  | Raise (PyError _ _) => True
  end.
Proof.
  unfold build_digest.
  pose proof (plain_error_flag plan "Session 1 Done") as P1.
  pose proof (plain_error_flag plan "Session 2 Done") as P2.
  pose proof (plain_error_plan_details plan) as P3.
  destruct (get_prop plan "Session 1 Done" ≫= extract_checkbox)
    as [s1|[]] eqn:H1; [|done|by intros [= <- _]].
  destruct (get_prop plan "Session 2 Done" ≫= extract_checkbox)
    as [s2|[]] eqn:H2; [|done|by intros [= <- _]].
  unfold mbind at 1 2, M_bind, lift.
  destruct (Py.truthy s1 && Py.truthy s2) eqn:Hb.
  { intros [= <- _]. by left. }
  destruct (extract_plan_details plan) as [d|[]] eqn:Hd;
    [|done|by intros [= <- _]].
  unfold mbind, M_bind.
  destruct (assemble_total notion request d w) as (a & w2 & Ha).
  rewrite Ha. intros [= <- <-]. right. by exists s1, s2, d, a.
Qed.

(** Every answer of the webhook is one of these. *)
Lemma webhook_cases request x_auth_token w response w' :
  webhook rt cfg request x_auth_token w = (response, w') →
  (∃ status msg, response = error_response status msg)
  ∨ (∃ why, (why = "no_plan" ∨ why = "completed")
       ∧ response = ok_response (WebhookResponse_new false why
                                   (DebugInfo_new (run_date request))))
  ∨ (∃ d a, reaches_assembly rt cfg request x_auth_token w d a w'
       ∧ response = ok_response (ok_envelope rt request d a))
  ∨ (∃ cls msg, response = global_exception_handler (PyError cls msg)).
Proof.
  unfold webhook, generate_study_email.
  destruct (check_request cfg x_auth_token) as [refusal|] eqn:Hc.
  { intros [= <- _]. left. by eapply check_request_refusal. }
  apply check_request_ready in Hc.
  unfold mbind, M_bind. rewrite plan_lookup_eq.
  destruct (query_by_date _ _ _ _ _ w) as [[plan_results|[status detail|cls msg]] w1]
    eqn:Hq.
  - destruct (Py.truthy plan_results) eqn:Ht; simpl.
    2:{ intros [= <- _]. right; left. exists "no_plan". auto. }
    pose proof (plain_error_index0 plan_results) as Pi. unfold lift.
    destruct (Py.index0 plan_results) as [plan|[]] eqn:Hi; [|done|].
    2:{ intros [= <- _]. right; right; right. by eexists _, _. }
    destruct (build_digest rt cfg _ request plan w1) as [r w2] eqn:Hb.
    apply build_digest_cases in Hb.
    destruct r as [resp|[]]; [|done|].
    2:{ intros [= <- _]. right; right; right. by eexists _, _. }
    intros [= <- <-].
    destruct Hb as [->|(s1 & s2 & d & a & H1 & H2 & Hf & Hd & Ha & ->)].
    + right; left. exists "completed". auto.
    + right; right; left. exists d, a. split; [|done].
      by exists plan_results, plan, w1, s1, s2.
  - intros [= <- _]. left. by eexists _, _.
  - intros [= <- _]. right; right; right. by eexists _, _.
Qed.

(** The answer on each path. *)
Lemma webhook_plan_error request x_auth_token w status detail w1 :
  ready cfg x_auth_token →
  query_by_date rt (NotionClient_new (NOTION_TOKEN cfg)) (PLAN_DB_ID cfg)
    "Date" (run_date request) w = (Raise (HTTPException status detail), w1) →
  webhook rt cfg request x_auth_token w = (error_response status detail, w1).
Proof.
  intros Hc%check_request_ready Hq. unfold webhook, generate_study_email.
  rewrite Hc. unfold mbind, M_bind. by rewrite plan_lookup_eq, Hq.
Qed.

Lemma webhook_plan_fault request x_auth_token w cls msg w1 :
  ready cfg x_auth_token →
  query_by_date rt (NotionClient_new (NOTION_TOKEN cfg)) (PLAN_DB_ID cfg)
    "Date" (run_date request) w = (Raise (PyError cls msg), w1) →
  webhook rt cfg request x_auth_token w
  = (global_exception_handler (PyError cls msg), w1).
Proof.
  intros Hc%check_request_ready Hq. unfold webhook, generate_study_email.
  rewrite Hc. unfold mbind, M_bind. by rewrite plan_lookup_eq, Hq.
Qed.

Lemma webhook_no_plan request x_auth_token w plan_results w1 :
  ready cfg x_auth_token →
  query_by_date rt (NotionClient_new (NOTION_TOKEN cfg)) (PLAN_DB_ID cfg)
    "Date" (run_date request) w = (Ok plan_results, w1) →
  Py.truthy plan_results = false →
  webhook rt cfg request x_auth_token w
  = (ok_response (WebhookResponse_new false "no_plan"
                    (DebugInfo_new (run_date request))), w1).
Proof.
  intros Hc%check_request_ready Hq Ht. unfold webhook, generate_study_email.
  rewrite Hc. unfold mbind, M_bind. by rewrite plan_lookup_eq, Hq, Ht.
Qed.

Lemma index0_truthy v x : Py.index0 v = Ok x → Py.truthy v = true.
Proof. destruct v as [| | |[|]|[|]|]; try done. Qed.

Lemma webhook_plan_row request x_auth_token w plan_results plan w1 :
  ready cfg x_auth_token →
  query_by_date rt (NotionClient_new (NOTION_TOKEN cfg)) (PLAN_DB_ID cfg)
    "Date" (run_date request) w = (Ok plan_results, w1) →
  Py.index0 plan_results = Ok plan →
  webhook rt cfg request x_auth_token w
  = match build_digest rt cfg (NotionClient_new (NOTION_TOKEN cfg)) request
            plan w1 with
    | (Ok response, w') => (response, w')
    | (Raise (HTTPException status detail), w') =>
        ({| status_code := status;
            content := PDict {[ "detail" := PStr detail ]} |}, w')
    | (Raise exc, w') => (global_exception_handler exc, w')
    end.
Proof.
  intros Hc%check_request_ready Hq Hi. unfold webhook, generate_study_email.
  rewrite Hc. unfold mbind at 1, M_bind at 1. rewrite plan_lookup_eq, Hq.
  rewrite (index0_truthy _ _ Hi). simpl. unfold mbind, M_bind, lift.
  by rewrite Hi.
Qed.

Lemma webhook_assembled request x_auth_token w d a w' :
  reaches_assembly rt cfg request x_auth_token w d a w' →
  webhook rt cfg request x_auth_token w
  = (ok_response (ok_envelope rt request d a), w').
Proof.
  intros (plan_results & plan & w1 & s1 & s2
          & Hc & Hq & Hi & H1 & H2 & Hf & Hd & Ha).
  rewrite (webhook_plan_row _ _ _ _ _ _ Hc Hq Hi).
  by rewrite (build_digest_ok _ _ _ _ _ _ _ _ _ H1 H2 Hf Hd Ha).
Qed.

End Paths.

(** ** The response envelope *)

Lemma reason_of_ok_response r :
  reason_of (content (ok_response r)) = Some (PStr (reason r)).
Proof. reflexivity. Qed.

Lemma reason_of_error_response status msg :
  reason_of (content (error_response status msg)) = None.
Proof. reflexivity. Qed.

Lemma reason_of_handler exc :
  reason_of (content (global_exception_handler exc)) = Some (PStr "error").
Proof. reflexivity. Qed.

Lemma has_envelope_ok_response r : has_envelope (content (ok_response r)).
Proof.
  unfold has_envelope, ok_response, model_dump, envelope_keys. simpl.
  rewrite !dom_insert_L. set_solver.
Qed.

Lemma has_envelope_handler exc :
  has_envelope (content (global_exception_handler exc)).
Proof.
  unfold has_envelope, global_exception_handler, envelope_keys. simpl.
  rewrite !dom_insert_L. set_solver.
Qed.

Lemma no_envelope_error_response status msg :
  ¬ has_envelope (content (error_response status msg)).
Proof.
  unfold has_envelope, error_response, envelope_keys. simpl.
  rewrite dom_singleton_L. intros H.
  assert ("reason" ∈ ({[ "error" ]} : gset string)) as Hin by set_solver.
  by apply elem_of_singleton in Hin.
Qed.

(** ** The claims *)

Section Claims.
Context {W : Type} (rt : Runtime W) (cfg : Config).
Implicit Types (w : W) (request : WebhookRequest).


(** C3, as the code has it. When the request passes the checks and the
    plan table answers the plan query with a status other than 200, the
    webhook answers with status 502 and the JSON object
    [{"error": "Notion API error: <status> - <body>"}], which has no
    [reason] and not the envelope. When the plan query ends with another
    exception (a time-out, a broken connection), the handler of unhandled
    exceptions answers. Every answer of the webhook either carries the five
    fields of the envelope or is such an error object; the answers built
    from a [WebhookResponse] and the answer of the handler of unhandled
    exceptions, whose reason is "error", carry the envelope. *)
Theorem plan_lookup_failure_answer request x_auth_token w reply w1 :
  ready cfg x_auth_token →
  post rt (query_url (PLAN_DB_ID cfg))
    (headers (NotionClient_new (NOTION_TOKEN cfg)))
    (query_body (Some (date_filter "Date" (run_date request))) None) w
    = (Ok reply, w1) →
  Httpx.status_code reply ≠ 200%Z →
  webhook rt cfg request x_auth_token w
    = (error_response 502
         ("Notion API error: " +:+ PyStr.str_of_Z (Httpx.status_code reply)
          +:+ " - " +:+ Httpx.text reply), w1)
  ∧ (∀ status msg,
       reason_of (content (error_response status msg)) = None
       ∧ ¬ has_envelope (content (error_response status msg)))
  ∧ (∀ w0 cls msg w0',
       post rt (query_url (PLAN_DB_ID cfg))
         (headers (NotionClient_new (NOTION_TOKEN cfg)))
         (query_body (Some (date_filter "Date" (run_date request))) None) w0
         = (Raise (PyError cls msg), w0') →
       webhook rt cfg request x_auth_token w0
       = (global_exception_handler (PyError cls msg), w0'))
  ∧ (∀ r, has_envelope (content (ok_response r)))
  ∧ (∀ exc, has_envelope (content (global_exception_handler exc))
            ∧ reason_of (content (global_exception_handler exc))
              = Some (PStr "error"))
  ∧ (∀ request' token' w0 response w0',
       webhook rt cfg request' token' w0 = (response, w0') →
       has_envelope (content response)
       ∨ ∃ status msg, response = error_response status msg).
Proof.
  intros Hready Hpost Hstatus. split.
  { apply webhook_plan_error; [done|].
    by apply query_database_upstream_error. }
  split. { intros. split; [done|apply no_envelope_error_response]. }
  split. { intros w0 cls msg w0' Hfault. apply webhook_plan_fault; [done|].
           by apply query_database_fault. }
  split; [apply has_envelope_ok_response|].
  split. { intros. split; [apply has_envelope_handler|done]. }
  intros request' token' w0 response w0' Hw.
  apply webhook_cases in Hw
    as [?|[(why & _ & ->)|[(d & a & _ & ->)|(cls & msg & ->)]]].
  - by right.
  - left. apply has_envelope_ok_response.
  - left. apply has_envelope_ok_response.
  - left. apply has_envelope_handler.
Qed.



(** C6. For every request that passes the checks: when the plan query
    returns no row the answer is [should_send] false with reason "no_plan";
    when the first row it returns has both completion flags true the answer
    is [should_send] false with reason "completed", whatever else the row
    holds. *)
Theorem no_plan_and_completed request x_auth_token w plan_results w1 :
  ready cfg x_auth_token →
  query_by_date rt (NotionClient_new (NOTION_TOKEN cfg)) (PLAN_DB_ID cfg)
    "Date" (run_date request) w = (Ok plan_results, w1) →
  (Py.truthy plan_results = false →
   webhook rt cfg request x_auth_token w
   = (ok_response (WebhookResponse_new false "no_plan"
                     (DebugInfo_new (run_date request))), w1))
  ∧ (∀ plan session1_done session2_done,
       Py.index0 plan_results = Ok plan →
       get_prop plan "Session 1 Done" ≫= extract_checkbox
         = Ok session1_done →
       get_prop plan "Session 2 Done" ≫= extract_checkbox
         = Ok session2_done →
       Py.truthy session1_done = true → Py.truthy session2_done = true →
       webhook rt cfg request x_auth_token w
       = (ok_response (WebhookResponse_new false "completed"
                         (DebugInfo_new (run_date request))), w1)).
Proof.
  intros Hready Hq. split.
  - intros Ht. by apply (webhook_no_plan _ _ _ _ _ plan_results).
  - intros plan s1 s2 Hi H1 H2 Ht1 Ht2.
    rewrite (webhook_plan_row _ _ _ _ _ _ _ _ Hready Hq Hi).
    rewrite (build_digest_completed _ _ _ _ _ _ s1 s2); [done..|].
    by rewrite Ht1, Ht2.
Qed.


(** C10. Whenever the webhook answers with reason "no_plan" or
    "completed", the subject and the body of the answer are the empty
    string, [should_send] is false, every count of the debug summary is zero
    and its practice-test flag is false; its date is that of the request. *)
Theorem early_exits_are_blank request x_auth_token w response w' :
  webhook rt cfg request x_auth_token w = (response, w') →
  reason_of (content response) = Some (PStr "no_plan")
  ∨ reason_of (content response) = Some (PStr "completed") →
  ∃ why,
    content response
    = PDict (list_to_map
        [("should_send", PBool false);
         ("subject", PStr "");
         ("body", PStr "");
         ("reason", PStr why);
         ("debug", PDict (list_to_map
            [("date", PStr (run_date request));
             ("objectives_count", PInt 0);
             ("resources_count", PInt 0);
             ("practice_test_found", PBool false);
             ("mistakes_found", PInt 0)]))]).
Proof.
  intros Hw Hreason.
  apply webhook_cases in Hw
    as [(status & msg & ->)|[(why & _ & ->)
        |[(d & a & _ & ->)|(cls & msg & ->)]]].
  - rewrite reason_of_error_response in Hreason. naive_solver.
  - by exists why.
  - rewrite reason_of_ok_response in Hreason. naive_solver.
  - rewrite reason_of_handler in Hreason. naive_solver.
Qed.

End Claims.

(** ** The claims about the expander and the extractors *)

(** C2. The expander maps the five inputs of the specification to the
    results it gives for them. A token that matches a range form adds the
    identifiers of its range: the prefix followed by each number from the
    first to the last, filled with zeros on the left to the width of the
    first run of digits (and never cut). For every input the result is in
    ascending order and has no duplicates. *)
Theorem range_expander_examples_and_order :
  parse_id_list "P-ENTRA-01..04"
    = ["P-ENTRA-01"; "P-ENTRA-02"; "P-ENTRA-03"; "P-ENTRA-04"]
  ∧ parse_id_list "P-ENTRA-01..P-ENTRA-03"
    = ["P-ENTRA-01"; "P-ENTRA-02"; "P-ENTRA-03"]
  ∧ parse_id_list "A-1, A-1, B-2" = ["A-1"; "B-2"]
  ∧ parse_id_list "X-9..7" = []
  ∧ parse_id_list "SOLO" = ["SOLO"]
  ∧ (∀ ids token m,
       Re.re_match Re.pattern_a token = Some m →
       add_token ids token
       = list_to_set (expand_range (Re.group m 1) (Re.group m 2)
                        (Re.group m 3)) ∪ ids)
  ∧ (∀ ids token m,
       Re.re_match Re.pattern_a token = None →
       Re.re_match Re.pattern_b token = Some m →
       Re.group m 1 = Re.group m 3 →
       add_token ids token
       = list_to_set (expand_range (Re.group m 1) (Re.group m 2)
                        (Re.group m 4)) ∪ ids)
  ∧ (∀ prefix g_start g_end x,
       x ∈ expand_range prefix g_start g_end ↔
       ∃ i, (PyStr.int_of_digits g_start ≤ i ≤ PyStr.int_of_digits g_end)%N
            ∧ x = prefix
                  +:+ PyStr.zfill (String.length g_start) (PyStr.str_of_N i))
  ∧ (∀ width s,
       PyStr.zfill width s = PyStr.zeros (width - String.length s) +:+ s
       ∧ String.length (PyStr.zfill width s) = width `max` String.length s)
  ∧ (∀ raw, Sorted String.le (parse_id_list raw)
            ∧ NoDup (parse_id_list raw)).
Proof.
  do 5 (split; [by vm_compute|]).
  split. { intros ids token m Hm. unfold add_token. rewrite Hm.
           apply add_all_spec. }
  split. { intros ids token m Ha Hb Heq. unfold add_token. rewrite Ha, Hb.
           rewrite Heq, String.eqb_refl. rewrite <-Heq. apply add_all_spec. }
  split; [apply elem_of_expand_range|].
  split. { intros. split; [done|apply zfill_length]. }
  intros raw. unfold parse_id_list. destruct (String.eqb raw "").
  - split; constructor.
  - split; [apply sorted_Sorted|apply sorted_NoDup].
Qed.


(** C8. Given an absent ([None]) or empty ([{}]) property container, and
    more generally any falsy one, each extractor returns its default: the
    empty string for text, single choice, date and URL, [False] for the
    checkbox; it does not raise. A property that a page does not have is
    read as the empty container. *)
Theorem extractors_default_on_absent :
  extract_rich_text PNone = Ok "" ∧ extract_rich_text (PDict ∅) = Ok ""
  ∧ extract_select PNone = Ok (PStr "")
  ∧ extract_select (PDict ∅) = Ok (PStr "")
  ∧ extract_checkbox PNone = Ok (PBool false)
  ∧ extract_checkbox (PDict ∅) = Ok (PBool false)
  ∧ extract_date PNone = Ok (PStr "") ∧ extract_date (PDict ∅) = Ok (PStr "")
  ∧ extract_url PNone = Ok (PStr "") ∧ extract_url (PDict ∅) = Ok (PStr "")
  ∧ (∀ prop, Py.truthy prop = false →
       extract_rich_text prop = Ok ""
       ∧ extract_select prop = Ok (PStr "")
       ∧ extract_checkbox prop = Ok (PBool false)
       ∧ extract_date prop = Ok (PStr "")
       ∧ extract_url prop = Ok (PStr ""))
  ∧ (∀ (page : gmap string pyval) (props : gmap string pyval) name,
       page !! "properties" = None
       ∨ page !! "properties" = Some (PDict props) ∧ props !! name = None →
       get_prop (PDict page) name = Ok (PDict ∅)).
Proof.
  do 10 (split; [reflexivity|]). split.
  - intros prop Hp.
    unfold extract_rich_text, extract_select, extract_checkbox, extract_date,
      extract_url. by rewrite Hp.
  - intros page props name [Hn|[Hp Hn]]; unfold get_prop; simpl.
    + by rewrite Hn.
    + by rewrite Hp; simpl; rewrite Hn.
Qed.

(** ** The claims on the scripted Notion *)

Module Scenario.
Import Example.

Lemma ready_cfg : ready cfg x_auth_token.
Proof. by repeat split. Defined.

(** With every objective query failing, the request still reaches the
    assembly. *)
Lemma objectives_down_reaches :
  reaches_assembly objectives_down cfg request x_auth_token 0
    details assembly 7.
Proof.
  exists (PList [plan_row false true]), (plan_row false true), 1,
    (PBool false), (PBool true).
  split; [exact ready_cfg|].
  repeat split; vm_compute; reflexivity.
Defined.


End Scenario.



(** C3: the plan table answers 503; the webhook answers 502 with an error
    object that has no reason. *)
Lemma plan_lookup_failure_counterexample :
  (webhook Example.plan_down Example.cfg Example.request
     Example.x_auth_token 0).1
  = error_response 502 "Notion API error: 503 - Service Unavailable"
  ∧ reason_of
      (content (error_response 502
                  "Notion API error: 503 - Service Unavailable")) = None
  ∧ dom (match content (error_response 502
                 "Notion API error: 503 - Service Unavailable") with
         | PDict d => d
         | _ => ∅
         end) = ({[ "error" ]} : gset string).
Proof.
  split; [by vm_compute|]. split; [done|]. simpl. apply dom_singleton_L.
Qed.

Lemma plan_lookup_failure_witness :
  webhook Example.plan_down Example.cfg Example.request
    Example.x_auth_token 0
  = (error_response 502 "Notion API error: 503 - Service Unavailable", 1).
Proof.
  refine (proj1 (plan_lookup_failure_answer Example.plan_down Example.cfg
    Example.request Example.x_auth_token 0
    {| Httpx.status_code := 503; Httpx.text := "Service Unavailable";
       Httpx.json := Raise (PyError "JSONDecodeError" "Expecting value") |}
    1 Scenario.ready_cfg _ _)).
  - reflexivity.
  - simpl. lia.
Defined.



(** Outside the assumption of C5: a record that cannot be read ends the
    loop of step 11 before the cut to three entries and the count. *)
Lemma unreadable_record_ends_step_11 :
  (assemble Example.broken_bank Example.cfg (NotionClient_new "secret_abc")
     Example.request Example.details 1).2 = 7
  ∧ ∃ a, (assemble Example.broken_bank Example.cfg
            (NotionClient_new "secret_abc") Example.request
            Example.details 1).1 = Ok a
         ∧ length (mistakes a) = 4 ∧ mistakes_found (a_debug a) = 0.
Proof. split; [by vm_compute|]. eexists. by vm_compute. Qed.

Lemma no_plan_and_completed_witness :
  webhook Example.no_rows Example.cfg Example.request Example.x_auth_token 0
  = (ok_response (WebhookResponse_new false "no_plan"
                    (DebugInfo_new "2025-03-01")), 1)
  ∧ webhook Example.all_done Example.cfg Example.request
      Example.x_auth_token 0
    = (ok_response (WebhookResponse_new false "completed"
                      (DebugInfo_new "2025-03-01")), 1).
Proof.
  split.
  - refine (proj1 (no_plan_and_completed Example.no_rows Example.cfg
      Example.request Example.x_auth_token 0 (PList []) 1
      Scenario.ready_cfg _) _); reflexivity.
  - refine (proj2 (no_plan_and_completed Example.all_done Example.cfg
      Example.request Example.x_auth_token 0
      (PList [Example.plan_row true true]) 1 Scenario.ready_cfg _)
      (Example.plan_row true true) (PBool true) (PBool true) _ _ _ _ _);
      vm_compute; reflexivity.
Defined.




Lemma early_exits_are_blank_witness :
  ∃ why,
    content (webhook Example.no_rows Example.cfg Example.request
               Example.x_auth_token 0).1
    = PDict (list_to_map
        [("should_send", PBool false);
         ("subject", PStr "");
         ("body", PStr "");
         ("reason", PStr why);
         ("debug", PDict (list_to_map
            [("date", PStr "2025-03-01");
             ("objectives_count", PInt 0);
             ("resources_count", PInt 0);
             ("practice_test_found", PBool false);
             ("mistakes_found", PInt 0)]))]).
Proof.
  refine (early_exits_are_blank Example.no_rows Example.cfg Example.request
    Example.x_auth_token 0 _ 1 _ _).
  - vm_compute. reflexivity.
  - left. vm_compute. reflexivity.
Defined.

(** * Further properties *)

(** ** More on the range expander *)

Section ExpanderMore.
Implicit Types (ids : gset string) (l : list string) (t s raw : string).

(** *** Numbers and their text *)

Lemma int_of_digits_foldl s :
  PyStr.int_of_digits s = foldl digit_step 0%N (String.list_ascii_of_string s).
Proof. reflexivity. Qed.

Lemma digits_of_uint_pos d p :
  foldl digit_step (Npos p)
    (String.list_ascii_of_string (NilEmpty.string_of_uint d))
  = Npos (Pos.of_uint_acc d p).
Proof.
  revert p. induction d; intros p; simpl; [done|..]; rewrite <-IHd;
    f_equal; unfold digit_step, PyStr.byte; simpl; lia.
Qed.

Lemma digits_of_uint d :
  foldl digit_step 0%N
    (String.list_ascii_of_string (NilEmpty.string_of_uint d))
  = Pos.of_uint d.
Proof.
  induction d; simpl; [done|done|..];
    rewrite <-digits_of_uint_pos; f_equal.
Qed.

(** [int(str(n)) == n] *)
Lemma int_of_str n : PyStr.int_of_digits (PyStr.str_of_N n) = n.
Proof.
  rewrite int_of_digits_foldl. unfold PyStr.str_of_N, NilZero.string_of_uint.
  rewrite <-(DecimalN.Unsigned.of_to n) at 2. unfold N.of_uint.
  destruct (N.to_uint n) eqn:E; try apply digits_of_uint.
  done.
Qed.

Lemma list_ascii_app s t :
  String.list_ascii_of_string (s +:+ t)
  = String.list_ascii_of_string s ++ String.list_ascii_of_string t.
Proof. induction s as [|c s IH]; [done|]. simpl. by rewrite <-IH. Qed.

Lemma int_of_zeros k s :
  PyStr.int_of_digits (PyStr.zeros k +:+ s) = PyStr.int_of_digits s.
Proof.
  rewrite !int_of_digits_foldl, list_ascii_app, foldl_app.
  f_equal. induction k as [|k IH]; [done|]. simpl. exact IH.
Qed.

(** The digits of a generated identifier read back as its number. *)
Lemma int_of_zfill width n :
  PyStr.int_of_digits (PyStr.zfill width (PyStr.str_of_N n)) = n.
Proof. unfold PyStr.zfill. by rewrite int_of_zeros, int_of_str. Qed.

Lemma str_of_N_nonempty n : PyStr.str_of_N n ≠ "".
Proof.
  intros H. pose proof (int_of_str n) as Hn. rewrite H in Hn.
  assert (n = 0%N) as -> by done. done.
Qed.

Lemma range_NoDup start stop : NoDup (PyStr.range start stop).
Proof.
  unfold PyStr.range. apply NoDup_fmap_2; [|apply NoDup_seq].
  intros x y. lia.
Qed.

Lemma range_length start stop :
  length (PyStr.range start stop) = N.to_nat (stop - start).
Proof. unfold PyStr.range. by rewrite length_fmap, length_seq. Qed.

(** *** The identifiers of a token *)

Lemma add_token_union ids t : add_token ids t = add_token ∅ t ∪ ids.
Proof.
  unfold add_token. repeat case_match; rewrite ?add_all_spec; set_solver.
Qed.

Lemma elem_of_foldl_add_token l ids x :
  x ∈ foldl add_token ids l ↔ x ∈ ids ∨ ∃ t, t ∈ l ∧ x ∈ add_token ∅ t.
Proof.
  revert ids. induction l as [|t l IH]; intros ids; simpl.
  - set_solver.
  - rewrite IH, add_token_union. set_solver.
Qed.

Lemma tokens_of_empty : tokens_of "" = [].
Proof. reflexivity. Qed.

Lemma elem_of_tokens_of raw t :
  t ∈ tokens_of raw ↔
  t ≠ "" ∧ ∃ piece, piece ∈ PyStr.split "," raw ∧ t = PyStr.strip piece.
Proof.
  unfold tokens_of. rewrite list_elem_of_omap. split.
  - intros (piece & Hin & H). destruct (String.eqb_spec (PyStr.strip piece) "");
      simplify_eq. eauto.
  - intros (Hne & piece & Hin & ->). exists piece. split; [done|].
    by destruct (String.eqb_spec (PyStr.strip piece) "").
Qed.

Lemma split_nonempty sep s : PyStr.split sep s ≠ [].
Proof. destruct s as [|c s]; [done|]. simpl. by repeat case_match. Qed.

Lemma split_append sep r1 r2 :
  PyStr.split sep (r1 +:+ String sep r2)
  = PyStr.split sep r1 ++ PyStr.split sep r2.
Proof.
  induction r1 as [|c r1 IH].
  - simpl. change ("" +:+ String sep r2) with (String sep r2). simpl.
    by rewrite Ascii.eqb_refl.
  - change (String c r1 +:+ String sep r2)
      with (String c (r1 +:+ String sep r2)).
    simpl. rewrite IH. destruct (Ascii.eqb c sep); [done|].
    pose proof (split_nonempty sep r1).
    by destruct (PyStr.split sep r1).
Qed.

Lemma strip_leading_space s : PyStr.strip (String " " s) = PyStr.strip s.
Proof. reflexivity. Qed.

Lemma tokens_of_leading_space raw : tokens_of (String " " raw) = tokens_of raw.
Proof.
  unfold tokens_of. simpl.
  pose proof (split_nonempty "," raw).
  destruct (PyStr.split "," raw) as [|h rest]; [done|].
  cbn [omap list_omap]. by rewrite strip_leading_space.
Qed.

Lemma tokens_of_comma r1 r2 :
  tokens_of (r1 +:+ "," +:+ r2) = tokens_of r1 ++ tokens_of r2.
Proof.
  unfold tokens_of.
  change ("," +:+ r2) with (String "," r2).
  rewrite split_append. apply omap_app.
Qed.

Lemma tokens_of_comma_space r1 r2 :
  tokens_of (r1 +:+ ", " +:+ r2) = tokens_of r1 ++ tokens_of r2.
Proof.
  change (", " +:+ r2) with ("," +:+ String " " r2).
  by rewrite tokens_of_comma, tokens_of_leading_space.
Qed.

End ExpanderMore.

(** *** Tokens without a digit *)

Section Digits.




End Digits.

(** *** The result as a set *)

Lemma parse_id_list_set raw :
  list_to_set (parse_id_list raw)
  = (foldl add_token ∅ (tokens_of raw) : gset string).
Proof.
  unfold parse_id_list. destruct (String.eqb_spec raw "") as [->|_]; [done|].
  apply set_eq. intros x. by rewrite elem_of_list_to_set, elem_of_sorted.
Qed.

(** X1. An identifier is in the result exactly when one of the tokens of
    the text (a piece between commas, stripped and not empty) contributes
    it: the token itself, or a member of its range. In particular neither
    the order of the tokens nor their repetition matters. *)
Theorem parse_id_list_members raw x :
  x ∈ parse_id_list raw ↔ ∃ t, t ∈ tokens_of raw ∧ x ∈ add_token ∅ t.
Proof.
  rewrite <-(elem_of_list_to_set (C := gset string)), parse_id_list_set.
  rewrite elem_of_foldl_add_token. set_solver.
Qed.

(** X2. Expanding two texts joined by a comma, with or without a space
    after it, gives the union of their expansions, in ascending order. *)
Theorem parse_id_list_of_joined r1 r2 :
  parse_id_list (r1 +:+ ", " +:+ r2)
    = sorted (list_to_set (parse_id_list r1) ∪ list_to_set (parse_id_list r2))
  ∧ parse_id_list (r1 +:+ "," +:+ r2)
    = sorted (list_to_set (parse_id_list r1) ∪ list_to_set (parse_id_list r2)).
Proof.
  assert (∀ raw, tokens_of raw = tokens_of r1 ++ tokens_of r2 →
            sorted (foldl add_token ∅ (tokens_of raw))
            = sorted (list_to_set (parse_id_list r1)
                      ∪ list_to_set (parse_id_list r2))) as Hjoin.
  { intros raw ->. f_equal. rewrite !parse_id_list_set. apply set_eq.
    intros x. rewrite elem_of_union, !elem_of_foldl_add_token.
    setoid_rewrite elem_of_app. set_solver. }
  split.
  - rewrite parse_id_list_unfold; [|by destruct r1].
    apply Hjoin, tokens_of_comma_space.
  - rewrite parse_id_list_unfold; [|by destruct r1].
    apply Hjoin, tokens_of_comma.
Qed.

(** X3. The identifiers of a range are pairwise distinct, there is one for
    each number from the first to the last, and the digits of each read back
    as its number. *)
Theorem range_identifiers_distinct prefix g_start g_end :
  NoDup (expand_range prefix g_start g_end)
  ∧ length (expand_range prefix g_start g_end)
    = N.to_nat (PyStr.int_of_digits g_end + 1 - PyStr.int_of_digits g_start)
  ∧ ∀ i, PyStr.int_of_digits
           (PyStr.zfill (String.length g_start) (PyStr.str_of_N i)) = i.
Proof.
  unfold expand_range. split; [|split].
  - apply NoDup_fmap_2; [|apply range_NoDup].
    intros i j H. apply (inj (String.app prefix)) in H.
    by rewrite <-(int_of_zfill (String.length g_start) i), H, int_of_zfill.
  - by rewrite length_fmap, range_length.
  - intros i. apply int_of_zfill.
Qed.

(** X4. The result never holds the empty identifier. *)
Theorem no_empty_identifier raw : Forall (λ x, x ≠ "") (parse_id_list raw).
Proof.
  apply Forall_forall. intros x (t & Ht & Hx)%parse_id_list_members.
  apply elem_of_tokens_of in Ht as [Hne _].
  assert (∀ p gs ge, x ∈ expand_range p gs ge → x ≠ "") as Hrange.
  { intros p gs ge (i & _ & ->)%elem_of_expand_range.
    unfold PyStr.zfill. intros H.
    pose proof (str_of_N_nonempty i) as Hi.
    destruct p; [|done]. destruct (PyStr.zeros _); [|done].
    by destruct (PyStr.str_of_N i). }
  unfold add_token in Hx.
  repeat case_match; rewrite ?add_all_spec in Hx;
    try (apply elem_of_union in Hx as [Hx%elem_of_list_to_set|Hx];
         [by eapply Hrange|set_solver]);
    set_solver.
Qed.



(** X6. A range whose last number is below its first one adds nothing, in
    both range forms. *)
Theorem reversed_range_adds_nothing ids token m :
  Re.re_match Re.pattern_a token = Some m
  ∧ (PyStr.int_of_digits (Re.group m 3)
     < PyStr.int_of_digits (Re.group m 2))%N
  ∨ Re.re_match Re.pattern_a token = None
    ∧ Re.re_match Re.pattern_b token = Some m
    ∧ Re.group m 1 = Re.group m 3
    ∧ (PyStr.int_of_digits (Re.group m 4)
       < PyStr.int_of_digits (Re.group m 2))%N →
  add_token ids token = ids.
Proof.
  assert (∀ p gs ge, (PyStr.int_of_digits ge < PyStr.int_of_digits gs)%N →
            expand_range p gs ge = []) as Hempty.
  { intros p gs ge Hlt. unfold expand_range, PyStr.range.
    by replace (N.to_nat _) with 0 by lia. }
  unfold add_token. intros [[-> Hlt]|(-> & -> & Heq & Hlt)].
  - by rewrite Hempty.
  - rewrite Heq, String.eqb_refl. rewrite <-Heq. by rewrite Hempty.
Qed.

Lemma reversed_range_adds_nothing_witness :
  add_token ({[ "A-1" ]} : gset string) "X-9..7" = {[ "A-1" ]}.
Proof.
  refine (reversed_range_adds_nothing {[ "A-1" ]} "X-9..7" ["X-"; "9"; "7"]
            (or_introl (conj _ _))).
  - reflexivity.
  - reflexivity.
Defined.

(** ** More on the extractors *)

Lemma traverse_text_runs items ss :
  Forall2 text_run items ss →
  traverse (λ item, Py.get item "plain_text" (PStr "")) items
  = Ok (PStr <$> ss).
Proof.
  induction 1 as [|item s items ss (i & -> & Hi) _ IH]; [done|].
  simpl. rewrite IH. by destruct Hi as [->|[-> ->]].
Qed.

(** X7. For a property typed [rich_text] or [title] whose array of that
    name is a list of runs, the text extractor returns the plain texts of
    the runs, concatenated and stripped; the array of the other name is not
    looked at. *)
Theorem rich_text_concatenates_runs (d : gmap string pyval) key items ss :
  key = "rich_text" ∨ key = "title" →
  d !! "type" = Some (PStr key) →
  d !! key = Some (PList items) →
  Forall2 text_run items ss →
  extract_rich_text (PDict d) = Ok (PyStr.strip (PyStr.join "" ss)).
Proof.
  intros Hkey Htype Harr Hruns. unfold extract_rich_text.
  assert (Py.truthy (PDict d) = true) as ->.
  { simpl. apply bool_decide_eq_true. intros ->. by rewrite lookup_empty in Htype. }
  assert (Py.get (PDict d) "type" (PStr "") = Ok (PStr key)) as ->
    by (simpl; by rewrite Htype).
  assert (Py.get (PDict d) key (PList []) = Ok (PList items)) as Hget
    by (simpl; by rewrite Harr).
  cbn [mbind result_bind negb].
  destruct Hkey as [-> | ->]; cbn [Py.eq_str String.eqb Ascii.eqb Bool.eqb];
    rewrite Hget.
  all: cbn [mbind result_bind].
  all: destruct Hruns as [|item s items ss Hi Hs]; [done|].
  all: cbn [Py.truthy negb Py.iter mbind result_bind].
  all: rewrite (traverse_text_runs (item :: items) (s :: ss))
         by by constructor.
  all: cbn [mbind result_bind]; unfold Py.join_empty.
  all: by rewrite join_items_strings.
Qed.

Lemma rich_text_concatenates_runs_witness :
  extract_rich_text (Example.rich_text "  Read about Entra ")
  = Ok "Read about Entra".
Proof.
  refine (rich_text_concatenates_runs _ "rich_text"
            [PDict {[ "plain_text" := PStr "  Read about Entra " ]}]
            ["  Read about Entra "] (or_introl eq_refl) _ _ _).
  - reflexivity.
  - reflexivity.
  - repeat constructor. eexists. split; [reflexivity|]. by left.
Defined.

(** X8. The URL and date extractors never return a null or another falsy
    value but the empty string; and the URL extractor falls back to the text
    of a property typed [rich_text] only: for a property of any other type
    than [url] it is the empty string. *)
Theorem url_and_date_are_text_or_truthy :
  (∀ prop v, extract_url prop = Ok v → v = PStr "" ∨ Py.truthy v = true)
  ∧ (∀ prop v, extract_date prop = Ok v → v = PStr "" ∨ Py.truthy v = true)
  ∧ (∀ (d : gmap string pyval),
       Py.eq_str (default (PStr "") (d !! "type")) "url" = false →
       Py.eq_str (default (PStr "") (d !! "type")) "rich_text" = false →
       extract_url (PDict d) = Ok (PStr "")).
Proof.
  assert (∀ a v, Py.or_else a (Ok (PStr "")) = Ok v →
            v = PStr "" ∨ Py.truthy v = true) as Hor.
  { intros a v. unfold Py.or_else. destruct (Py.truthy a) eqn:Ha; naive_solver. }
  split; [|split].
  - intros prop v. unfold extract_url.
    destruct (negb (Py.truthy prop)); [naive_solver|].
    destruct (Py.get prop "type" (PStr "")) as [ty|]; [|done]. simpl.
    destruct (Py.eq_str ty "url").
    { destruct (Py.get prop "url" (PStr "")); [|done]. apply Hor. }
    destruct (Py.eq_str ty "rich_text"); [|naive_solver].
    destruct (extract_rich_text prop) as [s|]; [|done]. simpl.
    intros [= <-]. destruct s; [by left|by right].
  - intros prop v. unfold extract_date.
    destruct (negb (Py.truthy prop)); [naive_solver|].
    destruct (Py.get prop "date" PNone) as [o|]; [|done]. simpl.
    destruct (Py.truthy o); [|naive_solver].
    destruct (Py.get o "start" (PStr "")); [|done]. apply Hor.
  - intros d Hu Hr. unfold extract_url.
    destruct (negb (Py.truthy (PDict d))); [done|]. simpl.
    by rewrite Hu, Hr.
Qed.

(** ** More on the webhook *)



(** X9. A request that does not pass the checks is refused with status 401
    or 500 and an error object, and no query is sent: the outside world is
    as it was. The status is 401 exactly when the shared secret is set on
    the server and the header does not carry it. *)
Theorem refused_before_any_query {W} (rt : Runtime W) (cfg : Config)
    (request : WebhookRequest) x_auth_token (w : W) :
  ¬ ready cfg x_auth_token →
  ∃ status msg,
    webhook rt cfg request x_auth_token w = (error_response status msg, w)
    ∧ (status = 401%Z ∨ status = 500%Z)
    ∧ (status = 401%Z ↔
       AUTH_TOKEN cfg ≠ "" ∧ x_auth_token ≠ Some (AUTH_TOKEN cfg)).
Proof.
  intros Hready.
  assert (∃ status msg,
            check_request cfg x_auth_token = Some (error_response status msg)
            ∧ (status = 401%Z ∨ status = 500%Z)
            ∧ (status = 401%Z ↔
               AUTH_TOKEN cfg ≠ "" ∧ x_auth_token ≠ Some (AUTH_TOKEN cfg)))
    as (status & msg & Hc & Hs).
  { destruct (check_request cfg x_auth_token) as [refusal|] eqn:Hc.
    2:{ by apply check_request_ready in Hc. }
    unfold check_request in Hc.
    destruct (String.eqb_spec (AUTH_TOKEN cfg) "") as [Ha|Ha].
    { simplify_eq. eexists _, _. split; [done|]. naive_solver. }
    destruct x_auth_token as [t|].
    2:{ simplify_eq. eexists _, _. split; [done|]. naive_solver. }
    destruct (String.eqb_spec t "") as [Ht|Ht]; simpl in Hc.
    { simplify_eq. eexists _, _. split; [done|]. naive_solver. }
    destruct (String.eqb_spec t (AUTH_TOKEN cfg)) as [Hne|Hne]; simpl in Hc.
    2:{ simplify_eq. eexists _, _. split; [done|]. naive_solver. }
    repeat case_match; simplify_eq; (eexists _, _; split; [done|]);
      naive_solver. }
  exists status, msg. split; [|done].
  unfold webhook, generate_study_email. by rewrite Hc.
Qed.

Lemma refused_before_any_query_witness :
  ∃ status msg,
    webhook Example.objectives_down Example.cfg Example.request None 0
      = (error_response status msg, 0)
    ∧ (status = 401%Z ∨ status = 500%Z)
    ∧ (status = 401%Z ↔
       AUTH_TOKEN Example.cfg ≠ "" ∧ None ≠ Some (AUTH_TOKEN Example.cfg)).
Proof.
  refine (refused_before_any_query Example.objectives_down Example.cfg
            Example.request None 0 _).
  intros (_ & H & _). discriminate H.
Defined.


(** X11. When the first plan row cannot be read (a completion flag or a
    plan detail raises), the handler of unhandled exceptions answers with
    status 500, the reason "error" and the message of the exception, and no
    further query is sent. *)
Theorem unreadable_plan_row_is_an_error {W} (rt : Runtime W) (cfg : Config)
    (request : WebhookRequest) x_auth_token (w : W)
    plan_results plan w1 exc :
  ready cfg x_auth_token →
  query_by_date rt (NotionClient_new (NOTION_TOKEN cfg)) (PLAN_DB_ID cfg)
    "Date" (run_date request) w = (Ok plan_results, w1) →
  Py.index0 plan_results = Ok plan →
  get_prop plan "Session 1 Done" ≫= extract_checkbox = Raise exc
  ∨ (∃ s1, get_prop plan "Session 1 Done" ≫= extract_checkbox = Ok s1
           ∧ get_prop plan "Session 2 Done" ≫= extract_checkbox = Raise exc)
  ∨ (∃ s1 s2,
       get_prop plan "Session 1 Done" ≫= extract_checkbox = Ok s1
       ∧ get_prop plan "Session 2 Done" ≫= extract_checkbox = Ok s2
       ∧ Py.truthy s1 && Py.truthy s2 = false
       ∧ extract_plan_details plan = Raise exc) →
  webhook rt cfg request x_auth_token w = (global_exception_handler exc, w1)
  ∧ status_code (global_exception_handler exc) = 500%Z
  ∧ content (global_exception_handler exc)
    = PDict (list_to_map
        [("should_send", PBool false);
         ("subject", PStr "");
         ("body", PStr "");
         ("reason", PStr "error");
         ("error", PStr (Py.str_of_exn exc));
         ("debug", PDict (list_to_map
            [("date", PStr "");
             ("objectives_count", PInt 0);
             ("resources_count", PInt 0);
             ("practice_test_found", PBool false);
             ("mistakes_found", PInt 0)]))]).
Proof.
  intros Hready Hq Hi Hraise. split; [|done].
  rewrite (webhook_plan_row _ _ _ _ _ _ _ _ Hready Hq Hi).
  pose proof (plain_error_flag plan "Session 1 Done") as P1.
  pose proof (plain_error_flag plan "Session 2 Done") as P2.
  pose proof (plain_error_plan_details plan) as P3.
  unfold build_digest.
  destruct Hraise as [H1|[(s1 & H1 & H2)|(s1 & s2 & H1 & H2 & Hf & Hd)]].
  - rewrite H1 in *. by destruct exc.
  - rewrite H1, H2 in *. by destruct exc.
  - rewrite H1, H2, Hd in *. unfold mbind, M_bind, lift. rewrite Hf.
    by destruct exc.
Qed.

Lemma unreadable_plan_row_is_an_error_witness :
  webhook
    (Example.server (Example.found [PStr "not a page"])
       (λ _, Example.found []) (λ _, Example.found [])
       (Example.found []) (Example.found []))
    Example.cfg Example.request Example.x_auth_token 0
  = (global_exception_handler
       (PyError "AttributeError" "'str' object has no attribute 'get'"), 1).
Proof.
  refine (proj1 (unreadable_plan_row_is_an_error _ Example.cfg Example.request
    Example.x_auth_token 0 (PList [PStr "not a page"]) (PStr "not a page") 1
    _ _ _ _ (or_introl _))).
  - by repeat split.
  - reflexivity.
  - reflexivity.
  - reflexivity.
Defined.

(** X12. When the plan table answers 200 with a JSON object that has no
    [results], the answer is that of a day without a plan. *)
Theorem missing_results_means_no_plan {W} (rt : Runtime W) (cfg : Config)
    (request : WebhookRequest) x_auth_token (w : W)
    reply w1 (data : gmap string pyval) :
  ready cfg x_auth_token →
  post rt (query_url (PLAN_DB_ID cfg))
    (headers (NotionClient_new (NOTION_TOKEN cfg)))
    (query_body (Some (date_filter "Date" (run_date request))) None) w
    = (Ok reply, w1) →
  Httpx.status_code reply = 200%Z →
  Httpx.json reply = Ok (PDict data) →
  data !! "results" = None →
  webhook rt cfg request x_auth_token w
  = (ok_response (WebhookResponse_new false "no_plan"
                    (DebugInfo_new (run_date request))), w1).
Proof.
  intros Hready Hpost Hs Hj Hd.
  apply (webhook_no_plan _ _ _ _ _ (PList [])); [done| |done].
  apply query_database_Ok. exists reply, (PDict data).
  repeat split; try done. simpl. by rewrite Hd.
Qed.

Lemma missing_results_means_no_plan_witness :
  webhook
    {| post := λ _ _ _ n,
         (Ok {| Httpx.status_code := 200; Httpx.text := "{}";
                Httpx.json := Ok (PDict ∅) |}, S n);
       py_repr := λ _, "" |}
    Example.cfg Example.request Example.x_auth_token 0
  = (ok_response (WebhookResponse_new false "no_plan"
                    (DebugInfo_new "2025-03-01")), 1).
Proof.
  refine (missing_results_means_no_plan _ Example.cfg Example.request
    Example.x_auth_token 0
    {| Httpx.status_code := 200; Httpx.text := "{}";
       Httpx.json := Ok (PDict ∅) |} 1 ∅ _ _ _ _ _).
  - by repeat split.
  - reflexivity.
  - reflexivity.
  - reflexivity.
  - reflexivity.
Defined.


(** *** The assembled e-mail *)





(** X14. In every e-mail that is assembled [mistakes_found] is at most 3
    and at most the number of mistakes listed, whatever the mistakes table
    answers. *)
Theorem mistakes_found_is_bounded {W} (rt : Runtime W) (cfg : Config)
    request x_auth_token (w : W) d a w' :
  reaches_assembly rt cfg request x_auth_token w d a w' →
  mistakes_found (a_debug a) ≤ 3
  ∧ mistakes_found (a_debug a) ≤ length (mistakes a).
Proof.
  intros (_ & _ & w1 & _ & _ & _ & _ & _ & _ & _ & _ & _ & Ha).
  apply assemble_Ok in Ha as (w2 & w3 & w4 & _ & _ & _ & Hm & _).
  apply fetch_mistakes_cases in Hm
    as [(_ & -> & ->)|(all & _ & [(_ & -> & ->)|(items & _ & H)])];
    [simpl; lia..|].
  destruct (collect_mistakes _ items []) as [found [e|]]; destruct H as [-> ->].
  - lia.
  - rewrite length_take. lia.
Qed.

Lemma mistakes_found_is_bounded_witness :
  mistakes_found (a_debug Example.assembly) ≤ 3
  ∧ mistakes_found (a_debug Example.assembly)
    ≤ length (mistakes Example.assembly).
Proof.
  exact (mistakes_found_is_bounded _ _ _ _ _ _ _ _
           Scenario.objectives_down_reaches).
Defined.

Lemma build_resource_ids_raw_set d objs :
  list_to_set (parse_id_list (build_resource_ids_raw d objs))
  = (list_to_set (parse_id_list (session1_resources_raw d))
     ∪ list_to_set (parse_id_list (session2_resources_raw d))
     ∪ ⋃ ((λ o, list_to_set (parse_id_list (o_primary_resources o)))
           <$> objs) : gset string).
Proof.
  unfold build_resource_ids_raw.
  assert (∀ raw,
    list_to_set (parse_id_list
      (foldl (λ raw obj,
                if String.eqb (o_primary_resources obj) "" then raw
                else raw +:+ ", " +:+ o_primary_resources obj) raw objs))
    = (list_to_set (parse_id_list raw)
       ∪ ⋃ ((λ o, list_to_set (parse_id_list (o_primary_resources o)))
             <$> objs) : gset string)) as Hfold.
  { induction objs as [|o objs IH]; intros raw; simpl.
    - set_solver.
    - rewrite IH. destruct (String.eqb_spec (o_primary_resources o) "") as [->|_].
      + set_solver.
      + rewrite (proj1 (parse_id_list_of_joined _ _)).
        apply set_eq. intros x.
        rewrite !elem_of_union, elem_of_list_to_set, elem_of_sorted.
        set_solver. }
  rewrite Hfold. rewrite (proj1 (parse_id_list_of_joined _ _)).
  apply set_eq. intros x.
  rewrite !elem_of_union, elem_of_list_to_set, elem_of_sorted. set_solver.
Qed.

(** X15. The resource identifiers of an assembled e-mail are those expanded
    from the resource references of the two sessions and from the primary
    resources of the objectives that were fetched, and no others. *)
Theorem resource_ids_cover_sessions_and_objectives {W} (rt : Runtime W)
    (cfg : Config) request x_auth_token (w : W) d a w' :
  reaches_assembly rt cfg request x_auth_token w d a w' →
  list_to_set (resource_ids a)
  = (list_to_set (parse_id_list (session1_resources_raw d))
     ∪ list_to_set (parse_id_list (session2_resources_raw d))
     ∪ ⋃ ((λ o, list_to_set (parse_id_list (o_primary_resources o)))
           <$> objectives a) : gset string).
Proof.
  intros (_ & _ & w1 & _ & _ & _ & _ & _ & _ & _ & _ & _ & Ha).
  apply assemble_Ok in Ha as (w2 & w3 & w4 & _ & _ & _ & _ & _ & -> & _).
  apply build_resource_ids_raw_set.
Qed.

Lemma resource_ids_cover_sessions_and_objectives_witness :
  list_to_set (resource_ids Example.assembly)
  = (list_to_set (parse_id_list (session1_resources_raw Example.details))
     ∪ list_to_set (parse_id_list (session2_resources_raw Example.details))
     ∪ ⋃ ((λ o, list_to_set (parse_id_list (o_primary_resources o)))
           <$> objectives Example.assembly) : gset string).
Proof.
  exact (resource_ids_cover_sessions_and_objectives _ _ _ _ _ _ _ _
           Scenario.objectives_down_reaches).
Defined.

Lemma string_app_assoc (a b c : string) : (a +:+ b) +:+ c = a +:+ b +:+ c.
Proof.
  induction a as [|x a IH]; [done|]. by rewrite !append_String, IH.
Qed.

Lemma string_app_empty_r (a : string) : a +:+ "" = a.
Proof. induction a as [|x a IH]; [done|]. by rewrite append_String, IH. Qed.

(** X16. The body of an assembled e-mail has a line for every objective,
    every resource and every mistake of the assembly, and it ends with the
    two unticked boxes of the checklist, whatever the completion flags of
    the plan row. *)
Theorem body_lists_every_entry {W} (rt : Runtime W) request d a :
  Forall (λ o, ∃ rest, "- " +:+ o_id o +:+ " — " +:+ o_objective o +:+ rest
                       ∈ body_lines rt request d a) (objectives a)
  ∧ Forall (λ r, "- " +:+ r_id r +:+ " — " +:+ r_name r
                 +:+ " (" +:+ py_format rt (r_type r) +:+ ")"
                 ∈ body_lines rt request d a) (resources a)
  ∧ Forall (λ m, "- Mistake: " +:+ m_summary m ∈ body_lines rt request d a)
      (mistakes a)
  ∧ ∃ lines, body_lines rt request d a
             = lines ++ ["[ ] Session 1 Done"; "[ ] Session 2 Done"].
Proof.
  unfold body_lines. split; [|split; [|split]].
  - apply Forall_forall. intros o Ho.
    assert (∃ rest, objective_line rt o
                    = "- " +:+ o_id o +:+ " — " +:+ o_objective o +:+ rest)
      as [rest Hrest].
    { unfold objective_line. case_match.
      - exists "". by rewrite string_app_empty_r.
      - eexists. by rewrite !string_app_assoc. }
    exists rest. rewrite <-Hrest.
    rewrite !elem_of_app. right; left.
    destruct (objectives a) as [|o' objs] eqn:E; [by apply elem_of_nil in Ho|].
    by apply list_elem_of_fmap_2.
  - apply Forall_forall. intros r Hr.
    rewrite !elem_of_app. do 3 right; left.
    destruct (resources a) as [|r' ress] eqn:E; [by apply elem_of_nil in Hr|].
    apply list_elem_of_bind. exists r. split; [|done].
    unfold resource_lines. rewrite !elem_of_app. left.
    apply list_elem_of_here.
  - apply Forall_forall. intros m Hm.
    rewrite !elem_of_app. do 7 right; left.
    destruct (mistakes a) as [|m' ms] eqn:E; [by apply elem_of_nil in Hm|].
    apply list_elem_of_bind. exists m. split; [|done].
    unfold mistake_lines. rewrite !elem_of_app. left.
    apply list_elem_of_here.
  - change [""; rule_line; "COMPLETION CHECKLIST"; rule_line;
            "[ ] Session 1 Done"; "[ ] Session 2 Done"]
      with ([""; rule_line; "COMPLETION CHECKLIST"; rule_line]
            ++ ["[ ] Session 1 Done"; "[ ] Session 2 Done"]).
    rewrite !app_assoc. by eexists.
Qed.

(** X17. The webhook answers [should_send] true only when the request has
    reached the assembly; the answer then has status 200 and reason "ok". *)
Theorem should_send_only_after_assembly {W} (rt : Runtime W) (cfg : Config)
    request x_auth_token (w : W) response w' (d : gmap string pyval) :
  webhook rt cfg request x_auth_token w = (response, w') →
  content response = PDict d →
  d !! "should_send" = Some (PBool true) →
  status_code response = 200%Z
  ∧ d !! "reason" = Some (PStr "ok")
  ∧ ∃ details a, reaches_assembly rt cfg request x_auth_token w details a w'.
Proof.
  intros Hw Hc Hs.
  apply webhook_cases in Hw
    as [(status & msg & ->)|[(why & _ & ->)
        |[(details & a & Hr & ->)|(cls & msg & ->)]]];
    injection Hc as <-.
  - by rewrite lookup_singleton_ne in Hs.
  - exfalso. revert Hs. generalize (DebugInfo_new (run_date request)).
    intros dbg Hs. by vm_compute in Hs.
  - repeat split; eauto.
  - exfalso. revert Hs. generalize (Py.str_of_exn (PyError cls msg)).
    intros e Hs. by vm_compute in Hs.
Qed.

Lemma should_send_only_after_assembly_witness :
  ∃ details a,
    reaches_assembly Example.objectives_down Example.cfg Example.request
      Example.x_auth_token 0 details a 7.
Proof.
  refine (proj2 (proj2 (should_send_only_after_assembly Example.objectives_down
    Example.cfg Example.request Example.x_auth_token 0
    (ok_response (ok_envelope Example.objectives_down Example.request
                    Example.details Example.assembly)) 7 _ _ eq_refl _))).
  - exact (webhook_assembled _ _ _ _ _ _ _ _ Scenario.objectives_down_reaches).
  - reflexivity.
Defined.
